(** * Convention-based data-quality checks: rule synthesis and SQL compilation

    A shallow embedding of [automatic_dq_rules.py] (the rule generator
    [generate_rules_for_table]) and of [run_automatic_dq_checks.py] (the SQL
    compiler [generate_test_sql] and the executor loop [run_all_checks]),
    followed by the properties of these functions.

    Conventions of the embedding.
    - A Python [str] is a [string]; SQL and description texts are built with
      [+:+] exactly where the source interpolates an f-string.
    - A Python [dict] used as a map (the test [config]) is a [gmap string pyval];
      its values are [None], booleans, integers and strings.
    - The dictionaries appended to [tests] always carry the same four keys and
      are a record [Test]; the defaults of [test.get(...)] in [run_all_checks]
      are for keys the generator always writes.
    - A call returns a value or raises: [py_result].  [generate_test_sql]
      returns [None] or a statement, or raises [ValueError] from the unpacking
      of the split table name.
    - [str.upper] and [str.lower] are parameters of the development (Section
      variables): every statement holds for any case mapping, in particular
      for Python's; [ascii_upper] and [ascii_lower] instantiate them on
      concrete inputs.
    - The wall clock ([datetime.now()], [datetime.utcnow()]) and the warehouse
      cursor are explicit arguments.  Logging has no part in any result and is
      left out. *)

From Stdlib Require Import ZArith Ascii String DecimalString.
From stdpp Require Import base option list strings gmap.

Local Open Scope Z_scope.

(** Appending to a literal prefix computes under [simpl]. *)
#[local] Arguments String.append : simpl nomatch.

(** ** Strings *)

Module Str.

(** The double quote that delimits SQL identifiers, and the line feed. *)
Definition dq : string := String "034"%char EmptyString.
Definition nl : string := String "010"%char EmptyString.

(** [f'"{s}"'] *)
Definition quoted (s : string) : string := dq +:+ s +:+ dq.

(** [s.startswith(p)] *)
Fixpoint startswith (s p : string) : bool :=
  match p, s with
  | EmptyString, _ => true
  | String _ _, EmptyString => false
  | String a p', String b s' => if Ascii.eqb a b then startswith s' p' else false
  end.

(** [needle in hay] for two strings. *)
Fixpoint contains (needle hay : string) : bool :=
  startswith hay needle ||
  match hay with
  | EmptyString => false
  | String _ hay' => contains needle hay'
  end.

(** [s.endswith(suffix)] *)
Fixpoint endswith (s suffix : string) : bool :=
  String.eqb s suffix ||
  match s with
  | EmptyString => false
  | String _ s' => endswith s' suffix
  end.

(** [s.split(sep)] for a one-character separator: one more part than there
    are separators. *)
Fixpoint split (sep : ascii) (s : string) : list string :=
  match s with
  | EmptyString => [EmptyString]
  | String c s' =>
      if Ascii.eqb c sep then EmptyString :: split sep s'
      else match split sep s' with
           | part :: parts => String c part :: parts
           | [] => [String c EmptyString]
           end
  end.

(** [sep.join(parts)] *)
Fixpoint join (sep : string) (parts : list string) : string :=
  match parts with
  | [] => EmptyString
  | [p] => p
  | p :: rest => p +:+ sep +:+ join sep rest
  end.

(** [x in xs] for a list of strings. *)
Definition mem (x : string) (xs : list string) : bool :=
  existsb (String.eqb x) xs.

(** [any(k in s for k in keywords)] *)
Definition any_in (keywords : list string) (s : string) : bool :=
  existsb (fun k => contains k s) keywords.

(** Number of occurrences of a character. *)
Fixpoint count_char (c : ascii) (s : string) : nat :=
  match s with
  | EmptyString => O
  | String a s' => (if Ascii.eqb a c then 1 else 0) + count_char c s'
  end%nat.

Definition upper_char (c : ascii) : ascii :=
  let n := nat_of_ascii c in
  if ((97 <=? n) && (n <=? 122))%nat then ascii_of_nat (n - 32) else c.

Definition lower_char (c : ascii) : ascii :=
  let n := nat_of_ascii c in
  if ((65 <=? n) && (n <=? 90))%nat then ascii_of_nat (n + 32) else c.

Fixpoint map_chars (f : ascii -> ascii) (s : string) : string :=
  match s with
  | EmptyString => EmptyString
  | String c s' => String (f c) (map_chars f s')
  end.

(** [str.upper] and [str.lower] on ASCII text. *)
Definition ascii_upper : string -> string := map_chars upper_char.
Definition ascii_lower : string -> string := map_chars lower_char.

(** [str(n)] for an integer. *)
Definition of_Z (n : Z) : string := NilZero.string_of_int (Z.to_int n).

End Str.

(** ** Python values held by a test configuration *)

Inductive pyval : Type :=
| VNone
| VBool (b : bool)
| VInt (n : Z)
| VStr (s : string).

(** [bool(v)] *)
Definition truthy (v : pyval) : bool :=
  match v with
  | VNone => false
  | VBool b => b
  | VInt n => negb (n =? 0)
  | VStr s => negb (String.eqb s EmptyString)
  end.

(** [f"{v}"] *)
Definition py_str (v : pyval) : string :=
  match v with
  | VNone => "None"
  | VBool true => "True"
  | VBool false => "False"
  | VInt n => Str.of_Z n
  | VStr s => s
  end.

(** [isinstance(v, int) and v > 0]; [bool] is a subclass of [int]. *)
Definition is_positive_int (v : pyval) : bool :=
  match v with
  | VInt n => 0 <? n
  | VBool b => b
  | _ => false
  end.

(** [f"{o}"] for a value that is a string or [None]. *)
Definition fmt_opt (o : option string) : string :=
  match o with
  | Some s => s
  | None => "None"
  end.

(** [d.get(k)] and [d.get(k, dflt)] *)
Definition dict_get (d : gmap string pyval) (k : string) : pyval :=
  default VNone (d !! k).
Definition dict_get_or (d : gmap string pyval) (k : string) (dflt : pyval) : pyval :=
  default dflt (d !! k).

(** ** Results of a Python call: a returned value or a raised exception *)

Inductive exn : Type :=
| ValueError.

Inductive py_result (A : Type) : Type :=
| Returned (a : A)
| Raised (e : exn).
Arguments Returned {A} a.
Arguments Raised {A} e.

Definition py_bind {A B} (m : py_result A) (k : A -> py_result B) : py_result B :=
  match m with
  | Returned a => k a
  | Raised e => Raised e
  end.

#[global] Instance py_result_ret : MRet py_result := fun _ a => Returned a.
#[global] Instance py_result_bind : MBind py_result := fun _ _ k m => py_bind m k.

(** ** The SQL compiler: [generate_test_sql] *)

Module Compiler.
Import Str.

(** [db, schema, table = model_name.split('.')]: the unpacking raises
    [ValueError] unless the split has exactly three parts. *)
Definition unpack3 (parts : list string) : py_result (string * string * string) :=
  match parts with
  | [a; b; c] => Returned (a, b, c)
  | _ => Raised ValueError
  end.

(** [f'"{db}"."{schema}"."{table}"'] *)
Definition quoted_model_name (db schema table : string) : string :=
  quoted db +:+ "." +:+ quoted schema +:+ "." +:+ quoted table.

(** [f'"{column_name}"' if column_name != 'N/A' else None] *)
Definition quoted_column_name (column_name : string) : option string :=
  if String.eqb column_name "N/A" then None else Some (quoted column_name).

(** The [if]/[elif] chain on [test_type]: the violation predicate, or
    [None] where the source returns [None]. *)
Definition base_condition_content
    (test_type column_name : string) (config : gmap string pyval) : option pyval :=
  if String.eqb test_type "not_null" then
    Some (VStr (fmt_opt (quoted_column_name column_name) +:+ " IS NULL"))
  else if String.eqb test_type "unique" then
    Some (VStr (fmt_opt (quoted_column_name column_name) +:+ " IS NOT NULL"))
  else if String.eqb test_type "custom_sql" then
    let sql_condition := dict_get config "sql" in
    if negb (truthy sql_condition) then None else Some sql_condition
  else None.

(** The two window predicates. *)
Definition yesterday_filter (quoted_date_window_col : string) : string :=
  quoted_date_window_col +:+ " >= CURRENT_DATE - INTERVAL '1 DAY' AND "
    +:+ quoted_date_window_col +:+ " < CURRENT_DATE".

Definition trailing_days_filter (quoted_date_window_col : string) (time_window_days : pyval) : string :=
  quoted_date_window_col +:+ " >= CURRENT_DATE - INTERVAL '"
    +:+ py_str time_window_days +:+ " DAY'".

(** [time_window_filter_content], [""] when no window applies. *)
Definition time_window_filter_content (config : gmap string pyval) : string :=
  let date_window_col := dict_get config "date_window_col" in
  let check_yesterday_only := dict_get_or config "check_yesterday_only" (VBool false) in
  if truthy date_window_col then
    let quoted_date_window_col := quoted (py_str date_window_col) in
    if truthy check_yesterday_only then yesterday_filter quoted_date_window_col
    else
      let time_window_days := dict_get config "time_window_days" in
      if is_positive_int time_window_days
      then trailing_days_filter quoted_date_window_col time_window_days
      else EmptyString
  else EmptyString.

(** [all_where_conditions] *)
Definition all_where_conditions (base : pyval) (config : gmap string pyval) : list string :=
  (if truthy base then ["(" +:+ py_str base +:+ ")"] else [])
  ++
  (if truthy (dict_get config "date_window_col") then
     if negb (String.eqb (time_window_filter_content config) EmptyString)
     then ["(" +:+ time_window_filter_content config +:+ ")"] else []
   else []).

(** [final_where_clause] *)
Definition final_where_clause (conditions : list string) : string :=
  match conditions with
  | [] => EmptyString
  | _ => " WHERE " +:+ join " AND " conditions
  end.

(** The text of the grouped query of a [unique] test. *)
Definition unique_query (qcol qmodel where_clause : string) : string :=
  nl +:+ "        SELECT COUNT(*) FROM (" +:+
  nl +:+ "            SELECT " +:+ qcol +:+
  nl +:+ "            FROM " +:+ qmodel +:+
  nl +:+ "            " +:+ where_clause +:+
  nl +:+ "            GROUP BY " +:+ qcol +:+
  nl +:+ "            HAVING COUNT(*) > 1" +:+
  nl +:+ "        )" +:+
  nl +:+ "        ".

(** The text of the row count of every other test. *)
Definition count_query (qmodel where_clause : string) : string :=
  "SELECT COUNT(*) FROM " +:+ qmodel +:+ where_clause.

Definition generate_test_sql
    (test_type model_name column_name : string)
    (config : option (gmap string pyval)) : py_result (option string) :=
  let config := default ∅ config in
  '(db, schema, table) ← unpack3 (split "." model_name);
  let qmodel := quoted_model_name db schema table in
  let qcol := quoted_column_name column_name in
  match base_condition_content test_type column_name config with
  | None => Returned None
  | Some base =>
      let where_clause := final_where_clause (all_where_conditions base config) in
      if String.eqb test_type "unique"
      then Returned (Some (unique_query (fmt_opt qcol) qmodel where_clause))
      else Returned (Some (count_query qmodel where_clause))
  end.

End Compiler.

(** ** The rule generator: [generate_rules_for_table] *)

(** A row of [DESCRIBE TABLE]: [{'name': ..., 'type': ...}]. *)
Record Column : Type := { name : string; type : string }.

(** A dictionary appended to [tests]. *)
Record Test : Type := {
  test_type : string;
  column_name : string;
  description : string;
  config : gmap string pyval
}.

(** The dictionary returned by [generate_rules_for_table]. *)
Record Model : Type := { model_name : string; tests : list Test }.

(** The fields of [datetime.now()]. *)
Record datetime : Type := { year : Z; month : Z; day : Z }.

Module Rules.
Import Str.

(** A [str] argument that may be [None], as stored in a dictionary. *)
Definition opt_val (o : option string) : pyval :=
  match o with
  | Some s => VStr s
  | None => VNone
  end.

(** [{**cfg, 'sql': sql_condition}] *)
Definition with_sql (cfg : gmap string pyval) (sql_condition : string) : gmap string pyval :=
  <["sql" := VStr sql_condition]> cfg.

Definition not_null_test (cfg : gmap string pyval) (col descr : string) : Test :=
  {| test_type := "not_null"; column_name := col; description := descr; config := cfg |}.

Definition unique_test (cfg : gmap string pyval) (col descr : string) : Test :=
  {| test_type := "unique"; column_name := col; description := descr; config := cfg |}.

Definition custom_sql_test (cfg : gmap string pyval) (col sql_condition descr : string) : Test :=
  {| test_type := "custom_sql"; column_name := col; description := descr;
     config := with_sql cfg sql_condition |}.

(** [base_test_config] *)
Definition base_test_config (primary_date_column : option string)
    (check_yesterday_only : bool) : gmap string pyval :=
  <["check_yesterday_only" := VBool check_yesterday_only]>
    (<["date_window_col" := opt_val primary_date_column]> ∅).

(** [description_prefix_base] *)
Definition description_prefix_base (primary_date_column : option string)
    (check_yesterday_only : bool) : string :=
  let pdc := opt_val primary_date_column in
  if check_yesterday_only && truthy pdc then
    "Auto-generated" +:+ " (on " +:+ py_str pdc +:+ " for yesterday only)"
  else if truthy pdc then
    "Auto-generated" +:+ " (on " +:+ py_str pdc +:+ " for recent data)"
  else "Auto-generated".

Definition primary_keys : list string := ["ID"; "USER_ID"; "DATE_ID"; "CAMPAIGN_ID"].

Definition timestamp_columns : list string :=
  ["CREATEDAT"; "UPDATEDAT"; "DATE"; "INSTALL_DATE"; "FIRST_ACTIVE";
   "LAST_ACTIVE"; "SUB_START_DATE"; "FIRST_IMPRESSION_DATE";
   "LAST_IMPRESSION_DATE"; "FIRST_BUFF_PLAY_ACTIVITY"].

Definition financial_keywords : list string :=
  ["BALANCE"; "BONUSBALANCE"; "SPEND"; "REVENUE"; "LTV"; "DAILY_SPEND_USD";
   "DAILY_SPEND_ILS"; "DAILY_SPEND_ARS"; "POINTS"].

Definition campaign_keywords : list string :=
  ["IMPRESSIONS"; "CLICKS"; "INSTALLS"; "CAMPAIGN_DURATION"].

Definition boolean_indicators : list string :=
  ["IS_SUB_IND"; "IS_ACTIVE_SUB_IND"; "ISCONFIRMEDEMAIL"; "ISFROZEN";
   "ISCLOSED"; "IS_REWARDED"; "IS_PREMIUM"; "CURRENT_YEAR_IND";
   "CURRENT_MONTH_IND"; "REGISTRATION_APP"].

Definition marketing_fields : list string :=
  ["SOURCE"; "MEDIUM"; "CAMPAIGN"; "MARKETING_SOURCE"; "DATA_SOURCE"].

Definition classification_fields : list string :=
  ["USER_TYPE"; "ROLE"; "AUTHTYPE"; "PREM_TYPE"].

Definition game_fields : list string := ["FIRST_GAME"; "LAST_GAME"; "MAIN_GAME"].

(** The condition of the future-date rule. *)
Definition future_date_condition (col : string) : string :=
  quoted col +:+ " > CURRENT_DATE() AND " +:+ quoted col +:+ " IS NOT NULL".

Definition email_regex : string :=
  "[A-Za-z0-9._%+-]+@[A-Za-z0-9.-]+\.[A-Za-z]{2,}".

(** [(TRIM("c") = '' OR "c" = ' ') AND "c" IS NOT NULL] *)
Definition blank_condition (col : string) : string :=
  "(TRIM(" +:+ quoted col +:+ ") = '' OR " +:+ quoted col +:+ " = ' ') AND "
    +:+ quoted col +:+ " IS NOT NULL".

Section Generator.
(** [str.upper] *)
Variable upper : string -> string.

Definition is_numeric_type (col_type : string) : bool :=
  contains "NUMBER" (upper col_type) || contains "FLOAT" (upper col_type).

Definition is_boolean_like_type (col_type : string) : bool :=
  contains "BOOLEAN" (upper col_type) || String.eqb (upper col_type) "NUMBER(1,0)".

Definition is_variant_type (col_type : string) : bool :=
  contains "VARIANT" (upper col_type).

Definition is_primary_key (col_name_upper : string) : bool :=
  mem col_name_upper primary_keys.

(** The condition of the [elif] of Rule 1, without the [if] above it. *)
Definition is_foreign_key_name (col_name_upper : string) : bool :=
  endswith col_name_upper "_ID" || mem col_name_upper ["UTM_KEY"].

Section LoopBody.
Variable now : datetime.
Variable table_name : string.
Variable description_prefix : string.
Variable current_test_config : gmap string pyval.
Variable col : Column.

Let col_name := name col.
Let col_type := type col.
Let col_name_upper := upper (name col).

(** Rule 1: primary and foreign keys. *)
Definition primary_key_not_null : Test :=
  not_null_test current_test_config col_name
    (description_prefix +:+ ": Primary key '" +:+ col_name +:+ "' should not be NULL.").

Definition primary_key_unique : Test :=
  unique_test current_test_config col_name
    (description_prefix +:+ ": Primary key '" +:+ col_name +:+ "' should be unique.").

Definition foreign_key_not_null : Test :=
  not_null_test current_test_config col_name
    (description_prefix +:+ ": Foreign key '" +:+ col_name +:+ "' should not be NULL.").

Definition rule_1 : list Test :=
  if is_primary_key col_name_upper then [primary_key_not_null; primary_key_unique]
  else if is_foreign_key_name col_name_upper then [foreign_key_not_null]
  else [].

(** Rule 2: timestamp and date columns.  The source also formats
    [datetime.now()] into [current_date] here and never uses it. *)
Definition timestamp_not_null : Test :=
  not_null_test current_test_config col_name
    (description_prefix +:+ ": Timestamp column '" +:+ col_name +:+ "' should not be NULL.").

Definition future_date_test : Test :=
  custom_sql_test current_test_config col_name (future_date_condition col_name)
    (description_prefix +:+ ": Timestamp '" +:+ col_name +:+ "' should not be in the future.").

Definition rule_2 : list Test :=
  if mem col_name_upper timestamp_columns then
    timestamp_not_null ::
    (if negb (contains "DIM_DATES" (upper table_name)) then [future_date_test] else [])
  else [].

(** Rule 3: email format. *)
Definition rule_3 : list Test :=
  if String.eqb col_name_upper "EMAIL" then
    [ not_null_test current_test_config col_name
        (description_prefix +:+ ": Email column '" +:+ col_name +:+ "' should not be NULL.");
      custom_sql_test current_test_config col_name
        ("NOT (REGEXP_LIKE(" +:+ quoted col_name +:+ ", '" +:+ email_regex +:+ "') OR "
           +:+ quoted col_name +:+ " IS NULL)")
        (description_prefix +:+ ": Email column '" +:+ col_name +:+ "' should have a valid format.") ]
  else [].

(** Rule 4: country codes. *)
Definition rule_4 : list Test :=
  if mem col_name_upper ["COUNTRY"; "COUNTRY_CODE"] then
    [ custom_sql_test current_test_config col_name
        ("(LEN(" +:+ quoted col_name +:+ ") < 2 OR LEN(" +:+ quoted col_name +:+ ") > 3) AND "
           +:+ quoted col_name +:+ " IS NOT NULL AND " +:+ quoted col_name +:+ " != ''")
        (description_prefix +:+ ": Country code '" +:+ col_name +:+ "' should be 2-3 characters.");
      custom_sql_test current_test_config col_name
        ("TRIM(" +:+ quoted col_name +:+ ") = '' AND " +:+ quoted col_name +:+ " IS NOT NULL")
        (description_prefix +:+ ": Country code '" +:+ col_name +:+ "' should not be empty or whitespace.") ]
  else [].

(** Rule 5: financial metrics. *)
Definition rule_5 : list Test :=
  if is_numeric_type col_type && any_in financial_keywords col_name_upper then
    if negb (contains "REFUND" col_name_upper) && negb (contains "ADJUSTMENT" col_name_upper) then
      [ custom_sql_test current_test_config col_name
          (quoted col_name +:+ " < 0 AND " +:+ quoted col_name +:+ " IS NOT NULL")
          (description_prefix +:+ ": Financial column '" +:+ col_name +:+ "' should be non-negative.") ]
    else []
  else [].

(** Rule 6: campaign and marketing metrics. *)
Definition rule_6 : list Test :=
  if is_numeric_type col_type && any_in campaign_keywords col_name_upper then
    custom_sql_test current_test_config col_name
      (quoted col_name +:+ " < 0 AND " +:+ quoted col_name +:+ " IS NOT NULL")
      (description_prefix +:+ ": Campaign metric '" +:+ col_name +:+ "' should be non-negative.")
    ::
    (if String.eqb col_name_upper "CAMPAIGN_DURATION" then
       [ custom_sql_test current_test_config col_name
           (quoted col_name +:+ " > 730 AND " +:+ quoted col_name +:+ " IS NOT NULL")
           (description_prefix +:+ ": Campaign duration '" +:+ col_name
              +:+ "' exceeds reasonable limit (730 days).") ]
     else [])
  else [].

(** Rule 7: boolean and indicator flags. *)
Definition rule_7 : list Test :=
  if mem col_name_upper boolean_indicators
     || (is_boolean_like_type col_type && any_in ["IS_"; "_IND"] col_name_upper) then
    let sql_condition :=
      if contains "BOOLEAN" (upper col_type)
      then quoted col_name +:+ " NOT IN (TRUE, FALSE) AND " +:+ quoted col_name +:+ " IS NOT NULL"
      else quoted col_name +:+ " NOT IN (0, 1) AND " +:+ quoted col_name +:+ " IS NOT NULL" in
    [ custom_sql_test current_test_config col_name sql_condition
        (description_prefix +:+ ": Boolean indicator '" +:+ col_name
           +:+ "' should have valid boolean values.") ]
  else [].

(** Rule 8: ordinals of the date dimension. *)
Definition range_condition (lo hi : string) : string :=
  "(" +:+ quoted col_name +:+ " < " +:+ lo +:+ " OR " +:+ quoted col_name +:+ " > " +:+ hi
    +:+ ") AND " +:+ quoted col_name +:+ " IS NOT NULL".

Definition rule_8 : list Test :=
  if is_numeric_type col_type then
    if String.eqb col_name_upper "MONTH_ID" then
      [ custom_sql_test current_test_config col_name (range_condition "1" "12")
          (description_prefix +:+ ": MONTH_ID should be between 1 and 12.") ]
    else if String.eqb col_name_upper "QUARTER_ID" then
      [ custom_sql_test current_test_config col_name (range_condition "1" "4")
          (description_prefix +:+ ": QUARTER_ID should be between 1 and 4.") ]
    else if String.eqb col_name_upper "WEEK_NUMBER" then
      [ custom_sql_test current_test_config col_name (range_condition "1" "53")
          (description_prefix +:+ ": WEEK_NUMBER should be between 1 and 53.") ]
    else if String.eqb col_name_upper "YEAR" then
      let current_year := year now in
      [ custom_sql_test current_test_config col_name
          (range_condition "2015" (of_Z (current_year + 10)))
          (description_prefix +:+ ": YEAR should be within business-relevant range (2015-"
             +:+ of_Z (current_year + 10) +:+ ").") ]
    else []
  else [].

(** Rule 9: UTM_KEY. *)
Definition rule_9 : list Test :=
  if String.eqb col_name_upper "UTM_KEY" then
    [ custom_sql_test current_test_config col_name (blank_condition col_name)
        (description_prefix +:+ ": UTM_KEY should not be empty or whitespace.");
      custom_sql_test current_test_config col_name
        ("LEN(" +:+ quoted col_name +:+ ") > 200 AND " +:+ quoted col_name +:+ " IS NOT NULL")
        (description_prefix +:+ ": UTM_KEY length exceeds reasonable limit (200 chars).") ]
  else [].

(** Rule 10: marketing sources. *)
Definition rule_10 : list Test :=
  if mem col_name_upper marketing_fields then
    [ custom_sql_test current_test_config col_name (blank_condition col_name)
        (description_prefix +:+ ": Marketing field '" +:+ col_name
           +:+ "' should not be empty or whitespace.") ]
  else [].

(** Rule 11: user types and roles. *)
Definition rule_11 : list Test :=
  if mem col_name_upper classification_fields then
    [ custom_sql_test current_test_config col_name (blank_condition col_name)
        (description_prefix +:+ ": Classification field '" +:+ col_name
           +:+ "' should not be empty or whitespace.") ]
  else [].

(** Rule 12: game identifiers. *)
Definition rule_12 : list Test :=
  if mem col_name_upper game_fields && is_numeric_type col_type then
    [ custom_sql_test current_test_config col_name
        (quoted col_name +:+ " <= 0 AND " +:+ quoted col_name +:+ " IS NOT NULL")
        (description_prefix +:+ ": Game ID '" +:+ col_name +:+ "' should be positive.") ]
  else [].

(** Rule 13: subscription counts. *)
Definition rule_13 : list Test :=
  if String.eqb col_name_upper "NUMBER_OF_ACTIVE_SUBSCRIPTIONS" && is_numeric_type col_type then
    [ custom_sql_test current_test_config col_name
        (quoted col_name +:+ " < 0 AND " +:+ quoted col_name +:+ " IS NOT NULL")
        (description_prefix +:+ ": NUMBER_OF_ACTIVE_SUBSCRIPTIONS should not be negative.");
      custom_sql_test current_test_config col_name
        (quoted col_name +:+ " > 10 AND " +:+ quoted col_name +:+ " IS NOT NULL")
        (description_prefix +:+ ": NUMBER_OF_ACTIVE_SUBSCRIPTIONS exceeds reasonable limit (10).") ]
  else [].

(** Rule 14: currency codes. *)
Definition rule_14 : list Test :=
  if String.eqb col_name_upper "CURRENCY" then
    [ custom_sql_test current_test_config col_name
        ("LEN(" +:+ quoted col_name +:+ ") != 3 AND " +:+ quoted col_name +:+ " IS NOT NULL")
        (description_prefix +:+ ": Currency code should be 3 characters.") ]
  else [].

(** Rule 15: VARIANT fields. *)
Definition rule_15 : list Test :=
  if is_variant_type col_type then
    [ custom_sql_test current_test_config col_name
        ("TRY_PARSE_JSON(" +:+ quoted col_name +:+ ") IS NULL AND " +:+ quoted col_name
           +:+ " IS NOT NULL AND " +:+ quoted col_name +:+ " != 'null'")
        (description_prefix +:+ ": VARIANT field '" +:+ col_name +:+ "' should contain valid JSON.") ]
  else [].

(** One iteration of [for col in columns]: what it appends to [tests]. *)
Definition column_tests : list Test :=
  rule_1 ++ rule_2 ++ rule_3 ++ rule_4 ++ rule_5 ++ rule_6 ++ rule_7 ++ rule_8
    ++ rule_9 ++ rule_10 ++ rule_11 ++ rule_12 ++ rule_13 ++ rule_14 ++ rule_15.

End LoopBody.

(** [col_index = {c["name"].upper(): c["name"] for c in columns}]: a later
    column replaces an earlier one with the same uppercased name. *)
Definition col_index (columns : list Column) : gmap string string :=
  foldl (fun index c => <[upper (name c) := name c]> index) ∅ columns.

(** [any(col['name'].upper() == key for col in columns)] *)
Definition has_column (columns : list Column) (key : string) : bool :=
  existsb (fun c => String.eqb (upper (name c)) key) columns.

Section AfterLoop.
Variable table_name : string.
Variable description_prefix_base : string.
Variable base_test_config : gmap string pyval.
Variable columns : list Column.

Let index := col_index columns.

(** 1. DATE_ID and DATE alignment. *)
Definition cross_date_id : list Test :=
  match index !! "DATE_ID", index !! "DATE" with
  | Some date_id, Some date =>
      [ custom_sql_test base_test_config date_id
          ("TO_NUMBER(TO_CHAR(" +:+ quoted date +:+ ", 'YYYYMMDD')) <> " +:+ quoted date_id
             +:+ " " +:+ "AND " +:+ quoted date +:+ " IS NOT NULL AND " +:+ quoted date_id
             +:+ " IS NOT NULL")
          (description_prefix_base +:+ ": DATE_ID must equal YYYYMMDD representation of DATE.") ]
  | _, _ => []
  end.

(** 2. createdAt is not after updatedAt. *)
Definition cross_created_updated : list Test :=
  match index !! "CREATEDAT", index !! "UPDATEDAT" with
  | Some created, Some updated =>
      [ custom_sql_test base_test_config created
          (quoted created +:+ " > " +:+ quoted updated +:+ " " +:+ "AND " +:+ quoted created
             +:+ " IS NOT NULL AND " +:+ quoted updated +:+ " IS NOT NULL")
          (description_prefix_base +:+ ": createdAt must be ≤ updatedAt.") ]
  | _, _ => []
  end.

(** 3. FIRST_IMPRESSION_DATE is not after LAST_IMPRESSION_DATE. *)
Definition cross_impression_order : list Test :=
  match index !! "FIRST_IMPRESSION_DATE", index !! "LAST_IMPRESSION_DATE" with
  | Some first, Some last =>
      [ custom_sql_test base_test_config first
          (quoted first +:+ " > " +:+ quoted last +:+ " " +:+ "AND " +:+ quoted first
             +:+ " IS NOT NULL AND " +:+ quoted last +:+ " IS NOT NULL")
          (description_prefix_base
             +:+ ": FIRST_IMPRESSION_DATE must not be after LAST_IMPRESSION_DATE.") ]
  | _, _ => []
  end.

(** 4. DATE lies between the two impression dates. *)
Definition cross_date_in_range : list Test :=
  match index !! "DATE", index !! "FIRST_IMPRESSION_DATE", index !! "LAST_IMPRESSION_DATE" with
  | Some date, Some first, Some last =>
      [ custom_sql_test base_test_config date
          ("(" +:+ quoted date +:+ " < " +:+ quoted first +:+ " " +:+ "OR " +:+ quoted date
             +:+ " > " +:+ quoted last +:+ ") " +:+ "AND " +:+ quoted date +:+ " IS NOT NULL")
          (description_prefix_base
             +:+ ": DATE must be between FIRST_IMPRESSION_DATE and LAST_IMPRESSION_DATE.") ]
  | _, _, _ => []
  end.

(** 5. CLICKS never exceed IMPRESSIONS. *)
Definition cross_clicks : list Test :=
  match index !! "CLICKS", index !! "IMPRESSIONS" with
  | Some clicks, Some impressions =>
      [ custom_sql_test base_test_config clicks
          (quoted clicks +:+ " > " +:+ quoted impressions +:+ " " +:+ "AND " +:+ quoted clicks
             +:+ " IS NOT NULL AND " +:+ quoted impressions +:+ " IS NOT NULL")
          (description_prefix_base +:+ ": CLICKS cannot exceed IMPRESSIONS.") ]
  | _, _ => []
  end.

Definition cross_column_tests : list Test :=
  cross_date_id ++ cross_created_updated ++ cross_impression_order
    ++ cross_date_in_range ++ cross_clicks.

(** Rule 16: rules gated on the table name. *)
Definition rule_16 : list Test :=
  if contains "ACCOUNTS" (upper table_name) then
    if has_column columns "ISCONFIRMEDEMAIL" && has_column columns "EMAIL" then
      [ custom_sql_test base_test_config "isConfirmedEmail,email"
          "ISCONFIRMEDEMAIL = TRUE AND EMAIL IS NULL"
          (description_prefix_base +:+ ": If email is confirmed, email field should not be null.") ]
    else []
  else if contains "DIM_USERS" (upper table_name) then
    if has_column columns "IS_ACTIVE_SUB_IND"
       && has_column columns "NUMBER_OF_ACTIVE_SUBSCRIPTIONS" then
      [ custom_sql_test base_test_config "IS_ACTIVE_SUB_IND,NUMBER_OF_ACTIVE_SUBSCRIPTIONS"
          "IS_ACTIVE_SUB_IND = 1 AND (NUMBER_OF_ACTIVE_SUBSCRIPTIONS IS NULL OR NUMBER_OF_ACTIVE_SUBSCRIPTIONS = 0)"
          (description_prefix_base
             +:+ ": Active subscription indicator should match subscription count.") ]
    else []
  else [].

End AfterLoop.

(** The list [tests] at the end of [generate_rules_for_table]. *)
Definition generated_tests (now : datetime) (table_name : string) (columns : list Column)
    (primary_date_column : option string) (check_yesterday_only : bool) : list Test :=
  let cfg := base_test_config primary_date_column check_yesterday_only in
  let prefix := description_prefix_base primary_date_column check_yesterday_only in
  (columns ≫= column_tests now table_name prefix cfg)
    ++ cross_column_tests prefix cfg columns
    ++ rule_16 table_name prefix cfg columns.

(** [now] is the reading of [datetime.now()] during the call. *)
Definition generate_rules_for_table (now : datetime) (table_name : string)
    (columns : list Column) (primary_date_column : option string)
    (check_yesterday_only : bool) : Model :=
  {| model_name := table_name;
     tests := generated_tests now table_name columns primary_date_column check_yesterday_only |}.

End Generator.
End Rules.

(** ** The executor: [run_all_checks] *)

(** What [cursor.execute(sql, timeout=...)] followed by [cursor.fetchone()[0]]
    does: it yields the count, raises the connector's [ProgrammingError]
    (with the text of [str(e)] and its [errno]), or raises anything else. *)
Inductive exec_outcome : Type :=
| Fetched (count : Z)
| ProgrammingError (text : string) (errno : option Z)
| OtherException.

(** An entry of [results]. *)
Record Result : Type := {
  r_model_name : string;
  r_column_name : string;
  r_test_type : string;
  status : string;
  failing_rows : Z;
  r_description : string;
  timestamp : string
}.

Module Runner.
Import Str Compiler.

Definition QUERY_TIMEOUT_SECONDS : Z := 30.

Section Executor.
(** [str.lower] *)
Variable lower : string -> string.
(** The cursor, at the [n]-th test of the run, given the statement and the
    timeout; and [datetime.utcnow().isoformat()] at that test. *)
Variable execute : nat -> string -> Z -> exec_outcome.
Variable utcnow : nat -> string.

(** ["timed out" in str(e).lower() or e.errno == 604] *)
Definition signals_timeout (text : string) (errno : option Z) : bool :=
  contains "timed out" (lower text)
  || match errno with Some n => n =? 604 | None => false end.

(** The [try]/[except] around the execution: [(status, failing_rows)]. *)
Definition classify (o : exec_outcome) : string * Z :=
  match o with
  | Fetched count => (if 0 <? count then "fail" else "pass", count)
  | ProgrammingError text errno =>
      (if signals_timeout text errno then "timeout" else "error", -1)
  | OtherException => ("error", -1)
  end.

(** [not sql] for the value returned by [generate_test_sql]. *)
Definition no_sql (sql : option string) : bool :=
  match sql with
  | None => true
  | Some s => String.eqb s EmptyString
  end.

(** The body of the inner loop; [generate_test_sql] is called outside the
    [try], so what it raises leaves [run_all_checks]. *)
Definition run_test (model : string) (test_counter : nat) (test : Test) : py_result Result :=
  sql ← generate_test_sql (test_type test) model (column_name test) (Some (config test));
  let '(st, rows) :=
    if no_sql sql then ("error", -1)
    else classify (execute test_counter (fmt_opt sql) QUERY_TIMEOUT_SECONDS) in
  Returned {| r_model_name := model; r_column_name := column_name test;
              r_test_type := test_type test; status := st; failing_rows := rows;
              r_description := description test; timestamp := utcnow test_counter |}.

(** [for test in model.get('tests', [])], from counter value [test_counter]. *)
Fixpoint run_tests (model : string) (test_counter : nat) (ts : list Test)
    : py_result (nat * list Result) :=
  match ts with
  | [] => Returned (test_counter, [])
  | test :: rest =>
      let test_counter := S test_counter in
      r ← run_test model test_counter test;
      '(n, rs) ← run_tests model test_counter rest;
      Returned (n, r :: rs)
  end.

(** [for model in rules] *)
Fixpoint run_models (test_counter : nat) (rules : list Model) : py_result (list Result) :=
  match rules with
  | [] => Returned []
  | model :: rest =>
      '(n, rs) ← run_tests (model_name model) test_counter (tests model);
      rs' ← run_models n rest;
      Returned (rs ++ rs')
  end.

Definition total_tests (rules : list Model) : nat :=
  foldr (fun model n => (length (tests model) + n)%nat) O rules.

Definition run_all_checks (rules : list Model) : py_result (list Result) :=
  if (total_tests rules =? 0)%nat then Returned []
  else run_models O rules.

End Executor.
End Runner.

(** ** Discovery: [get_date_column], [is_table_active], [discover_active_tables] *)

(** An entry of [active_tables_info]: [{"fqn": ..., "date_col": ...}]. *)
Record TableInfo : Type := { fqn : string; date_col : string }.

(** What a call of [get_date_column] does: it returns a name or [None];
    [next(...)] on an exhausted generator would raise [StopIteration]. *)
Inductive date_column_result : Type :=
| DateColumn (found : option string)
| RaisesStopIteration.

(** What [cursor.execute(query, timeout=15)] and [cursor.fetchone()[0]] give
    for [SELECT MAX(...)]: a value, NULL, or an exception. *)
Inductive max_outcome (V : Type) : Type :=
| MaxValue (v : V)
| MaxNull
| MaxRaises.
Arguments MaxValue {V} v.
Arguments MaxNull {V}.
Arguments MaxRaises {V}.

Module Discovery.
Import Str Compiler.

Definition priority_order : list string :=
  ["UPDATED_AT"; "UPDATEDAT"; "CREATED_AT"; "CREATEDAT"; "TIMESTAMP"; "EVENTTIMESTAMP";
   "DATE"; "DATE_PART"; "ACTIVE_DATE"; "INSTALL_DATE"; "REGISTERED_AT"; "LAST_ACTIVE"].

(** [f"{db}.{schema}.{table_name}"] *)
Definition qualified (db schema table : string) : string :=
  db +:+ "." +:+ schema +:+ "." +:+ table.

Section Discovery.
(** [str.upper] *)
Variable upper : string -> string.
(** The warehouse during the run: what it answers to the text of a statement,
    [None] where the execution raises.  [DESCRIBE TABLE] gives the name and
    the type of each column, [SHOW TABLES] the name of each table (the second
    field of a row). *)
Variable describe_table : string -> option (list Column).
Variable show_tables : string -> option (list string).
(** The values of date columns, the answer to [SELECT MAX(...)] with its
    timeout, and pandas' comparison of such a value with the instant thirty
    days before [datetime.utcnow()] ([None] where pandas raises). *)
Variable V : Type.
Variable select_max : string -> Z -> max_outcome V.
Variable within_thirty_days : string -> V -> option bool.
(** [config.TARGET_SCHEMAS] *)
Variable TARGET_SCHEMAS : list (string * string).

(** ["DATE" in c[1].upper() or "TIMESTAMP" in c[1].upper()] *)
Definition is_date_type (col_type : string) : bool :=
  contains "DATE" (upper col_type) || contains "TIMESTAMP" (upper col_type).

Section Columns.
Variable cols : list Column.

(** [col_names] and [date_type_cols] *)
Definition col_names : list string := (fun c => upper (name c)) <$> cols.
Definition date_type_cols : list string :=
  name <$> filter (fun c => is_date_type (type c) = true) cols.

(** [next(c[0] for c in cols if c[0].upper() == col_name_priority)] *)
Definition next_named (col_name_priority : string) : option string :=
  name <$> head (filter (fun c => upper (name c) = col_name_priority) cols).

(** The loop over the priority list, then the fallback on the first column
    of a date type. *)
Fixpoint by_priority (priority : list string) : date_column_result :=
  match priority with
  | [] => DateColumn (head date_type_cols)
  | col_name_priority :: rest =>
      if mem col_name_priority col_names then
        match next_named col_name_priority with
        | None => RaisesStopIteration
        | Some original_name =>
            if mem (upper original_name) (upper <$> date_type_cols)
            then DateColumn (Some original_name)
            else by_priority rest
        end
      else by_priority rest
  end.

End Columns.

Definition describe_statement (db schema table : string) : string :=
  "DESCRIBE TABLE " +:+ quoted_model_name db schema table.

Definition get_date_column (db schema table : string) : date_column_result :=
  match describe_table (describe_statement db schema table) with
  | None => DateColumn None
  | Some cols => by_priority cols priority_order
  end.

(** [f'SELECT MAX("{date_col}") FROM "{db}"."{schema}"."{table}"'] *)
Definition max_statement (db schema table date_col : string) : string :=
  "SELECT MAX(" +:+ quoted date_col +:+ ") FROM " +:+ quoted_model_name db schema table.

(** The split of the name stands before the [try]: its [ValueError] leaves
    the function.  Everything raised inside the [try] gives [False]. *)
Definition is_table_active (fqn date_col : string) : py_result bool :=
  '(db, schema, table) ← unpack3 (split "." fqn);
  let query := max_statement db schema table date_col in
  Returned
    match select_max query 15 with
    | MaxRaises => false
    | MaxNull => false
    | MaxValue max_date => default false (within_thirty_days query max_date)
    end.

(** The inner loop of [discover_active_tables] over the rows of one schema:
    what it appends to [active_tables_info].  An exception ends the loop (it
    is caught around the whole schema) and keeps what was appended. *)
Fixpoint scan_tables (db schema : string) (table_names : list string) : list TableInfo :=
  match table_names with
  | [] => []
  | table_name :: rest =>
      let fqn := qualified db schema table_name in
      match get_date_column db schema table_name with
      | RaisesStopIteration => []
      | DateColumn date_col =>
          if truthy (Rules.opt_val date_col) then
            match is_table_active fqn (fmt_opt date_col) with
            | Raised _ => []
            | Returned true =>
                {| fqn := fqn; date_col := fmt_opt date_col |} :: scan_tables db schema rest
            | Returned false => scan_tables db schema rest
            end
          else scan_tables db schema rest
      end
  end.

Definition show_tables_statement (db schema : string) : string :=
  "SHOW TABLES IN SCHEMA " +:+ quoted db +:+ "." +:+ quoted schema.

Definition discover_schema (db schema : string) : list TableInfo :=
  match show_tables (show_tables_statement db schema) with
  | None => []
  | Some table_names => scan_tables db schema table_names
  end.

Definition discover_active_tables : list TableInfo :=
  TARGET_SCHEMAS ≫= (fun '(db, schema) => discover_schema db schema).

(** [get_table_columns]: the split stands before the [try]; a failing
    [DESCRIBE TABLE] gives the empty list. *)
Definition get_table_columns (fqn : string) : py_result (list Column) :=
  '(db, schema, table) ← unpack3 (split "." fqn);
  Returned (default [] (describe_table (describe_statement db schema table))).

End Discovery.
End Discovery.

(** ** The pipeline: [generate_all_rules] and [main] *)

(** How a run of [main] ends: [sys.exit(1)] before anything is written when
    there is no connection; an exception that nothing catches; or the results
    written to the report file and the exit code (0 for a normal return). *)
Inductive main_end : Type :=
| NoConnection
| Uncaught (e : exn)
| Finished (written : list Result) (code : Z).

Module Pipeline.
Import Str Compiler Rules Runner Discovery.

Section Pipeline.
Variable upper lower : string -> string.
Variable describe_table : string -> option (list Column).
Variable show_tables : string -> option (list string).
Variable V : Type.
Variable select_max : string -> Z -> max_outcome V.
Variable within_thirty_days : string -> V -> option bool.
Variable TARGET_SCHEMAS : list (string * string).
(** [datetime.now()] at the call of [generate_rules_for_table] for the
    [n]-th table. *)
Variable now_at : nat -> datetime.
Variable execute : nat -> string -> Z -> exec_outcome.
Variable utcnow : nat -> string.

(** The body of the loop of [generate_all_rules]: the models it appends for
    one table. *)
Definition rules_for (n : nat) (table_info : TableInfo) (check_yesterday_only : bool)
    : py_result (list Model) :=
  columns ← get_table_columns describe_table (fqn table_info);
  Returned
    match columns with
    | [] => []
    | _ =>
        let rules_for_model :=
          generate_rules_for_table upper (now_at n) (fqn table_info) columns
            (Some (date_col table_info)) check_yesterday_only in
        match tests rules_for_model with
        | [] => []
        | _ => [rules_for_model]
        end
    end.

Fixpoint generate_all_rules_from (n : nat) (active_tables_info : list TableInfo)
    (check_yesterday_only : bool) : py_result (list Model) :=
  match active_tables_info with
  | [] => Returned []
  | table_info :: rest =>
      here ← rules_for n table_info check_yesterday_only;
      later ← generate_all_rules_from (S n) rest check_yesterday_only;
      Returned (here ++ later)
  end.

Definition generate_all_rules (active_tables_info : list TableInfo)
    (check_yesterday_only : bool) : py_result (list Model) :=
  generate_all_rules_from O active_tables_info check_yesterday_only.

(** The counts of the summary of [main] and its exit code. *)
Definition count_status (s : string) (results : list Result) : nat :=
  length (filter (fun r => status r = s) results).

Definition exit_code (results : list Result) : Z :=
  if ((0 <? count_status "fail" results) || (0 <? count_status "error" results)
      || (0 <? count_status "timeout" results))%nat
  then 1 else 0.

(** [main]; [connected] tells whether [get_snowflake_connection] returned a
    connection ([None] on any exception of the connector). *)
Definition main (connected : bool) : main_end :=
  if negb connected then NoConnection
  else
    let check_yesterday_only := true in
    let active_tables_info :=
      discover_active_tables upper describe_table show_tables V select_max
        within_thirty_days TARGET_SCHEMAS in
    match
      rules ← generate_all_rules active_tables_info check_yesterday_only;
      run_all_checks lower execute utcnow rules
    with
    | Raised e => Uncaught e
    | Returned results => Finished results (exit_code results)
    end.

End Pipeline.
End Pipeline.

(** ** Vocabulary of the properties *)

Import Str Compiler Rules Runner.

(** A qualified name [database.schema.table]: exactly two separators. *)
Definition three_part (model : string) : Prop := count_char "." model = 2%nat.

(** What the time window adds to a [WHERE] clause that already holds the
    violation predicate. *)
Definition window_suffix (cfg : gmap string pyval) : string :=
  let w := time_window_filter_content cfg in
  if String.eqb w EmptyString then EmptyString else " AND (" +:+ w +:+ ")".

(** The three kinds of test that [generate_test_sql] knows. *)
Definition recognized (kind : string) : Prop :=
  kind = "not_null" ∨ kind = "unique" ∨ kind = "custom_sql".

(** [not config.get("sql")]: the key is missing, or holds [None] or an empty
    value; the source logs this case as a missing 'sql' configuration. *)
Definition sql_missing (cfg : gmap string pyval) : Prop :=
  truthy (dict_get cfg "sql") = false.

(** The kinds and configurations for which a violation predicate exists. *)
Definition compiles (kind : string) (cfg : gmap string pyval) : Prop :=
  kind = "not_null" ∨ kind = "unique" ∨ (kind = "custom_sql" ∧ ¬ sql_missing cfg).

(** The tests of a run in the order the two loops of [run_all_checks] visit
    them, each with the name of its table. *)
Definition all_tests (rules : list Model) : list (string * Test) :=
  rules ≫= (fun model => pair (model_name model) <$> tests model).

(** The tests of one kind that name one column. *)
Definition tests_of_kind (kind col : string) (ts : list Test) : list Test :=
  filter (fun t => test_type t = kind ∧ column_name t = col) ts.

(** A future-date specification: a [custom_sql] test whose condition is the
    comparison of its own column with [CURRENT_DATE()]. *)
Definition is_future_date_spec (t : Test) : Prop :=
  test_type t = "custom_sql"
  ∧ config t !! "sql" = Some (VStr (future_date_condition (column_name t))).

(** The columns whose tests read the clock: Rule 8 writes the current year
    into the range of a numeric column named YEAR. *)
Definition reads_the_clock (upper : string -> string) (c : Column) : bool :=
  is_numeric_type upper (type c) && String.eqb (upper (name c)) "YEAR".


(** A name without the separator. *)
Definition dot_free (sep : ascii) (s : string) : Prop := count_char sep s = O.

(** The three shapes of a record of [results]. *)
Definition consistent (r : Result) : Prop :=
  (status r = "pass" ∧ failing_rows r <= 0)
  ∨ (status r = "fail" ∧ 0 < failing_rows r)
  ∨ ((status r = "error" ∨ status r = "timeout") ∧ failing_rows r = -1).

(** ** Sample inputs *)

Definition sample_now : datetime := {| year := 2026; month := 11; day := 4 |}.

Definition accounts_columns : list Column :=
  [ {| name := "id"; type := "NUMBER(38,0)" |};
    {| name := "referrer_id"; type := "NUMBER(38,0)" |};
    {| name := "email"; type := "VARCHAR(256)" |};
    {| name := "updatedAt"; type := "TIMESTAMP_NTZ(9)" |} ].

Definition dim_dates_columns : list Column :=
  [ {| name := "DATE_ID"; type := "NUMBER(38,0)" |};
    {| name := "DATE"; type := "DATE" |};
    {| name := "YEAR"; type := "NUMBER(4,0)" |} ].

(** A run of two tables: the generated tests of an accounts table, and two
    hand-written tests that the compiler refuses. *)
Definition sample_rules : list Model :=
  [ generate_rules_for_table ascii_upper sample_now "DWH.PUBLIC.ACCOUNTS"
      accounts_columns (Some "updatedAt") true;
    {| model_name := "DWH.PUBLIC.ORDERS";
       tests := [ {| test_type := "accepted_values"; column_name := "STATUS";
                     description := "Status is one of the known values.";
                     config := ∅ |};
                  {| test_type := "custom_sql"; column_name := "TOTAL";
                     description := "Total is not negative.";
                     config := {[ "sql" := VStr EmptyString ]} |} ] |} ].

(** A cursor that times out on the first two statements (once by error
    number, once by text), fails on the third and the fourth, and finds one
    violating row afterwards. *)
Definition sample_cursor (n : nat) (sql : string) (timeout : Z) : exec_outcome :=
  match n with
  | 1%nat => ProgrammingError "000604 (57014): SQL execution canceled" (Some 604)
  | 2%nat => ProgrammingError "Statement Timed Out after 30 seconds" None
  | 3%nat => ProgrammingError "002003 (42S02): Object does not exist" (Some 2003)
  | 4%nat => OtherException
  | _ => Fetched 1
  end.

Definition sample_clock (n : nat) : string := "2026-11-04T00:00:00".

(** A warehouse with two target schemas.  The first lists an accounts table
    with fresh rows and a date dimension whose newest row is old.  The second
    lists three tables of events, the middle one under a name that holds a dot.
    Dates are day numbers; thirty days ago is day 70. *)
Definition sample_schemas : list (string * string) := [("DWH", "PUBLIC"); ("DWH", "RAW")].

Definition events_columns : list Column :=
  [ {| name := "event_id"; type := "NUMBER(38,0)" |};
    {| name := "ts"; type := "TIMESTAMP_NTZ(9)" |} ].

Definition sample_show_tables (statement : string) : option (list string) :=
  if String.eqb statement (Discovery.show_tables_statement "DWH" "PUBLIC")
  then Some ["ACCOUNTS"; "DIM_DATES"]
  else if String.eqb statement (Discovery.show_tables_statement "DWH" "RAW")
  then Some ["SESSIONS"; "EVENTS.V2"; "CLICKS"]
  else None.

Definition sample_describe (statement : string) : option (list Column) :=
  if String.eqb statement (Discovery.describe_statement "DWH" "PUBLIC" "ACCOUNTS")
  then Some accounts_columns
  else if String.eqb statement (Discovery.describe_statement "DWH" "PUBLIC" "DIM_DATES")
  then Some dim_dates_columns
  else if mem statement
            [ Discovery.describe_statement "DWH" "RAW" "SESSIONS";
              Discovery.describe_statement "DWH" "RAW" "EVENTS.V2";
              Discovery.describe_statement "DWH" "RAW" "CLICKS" ]
  then Some events_columns
  else None.

Definition sample_select_max (statement : string) (timeout : Z) : max_outcome Z :=
  if String.eqb statement (Discovery.max_statement "DWH" "PUBLIC" "ACCOUNTS" "updatedAt")
  then MaxValue 99
  else if String.eqb statement (Discovery.max_statement "DWH" "PUBLIC" "DIM_DATES" "DATE")
  then MaxValue 12
  else if mem statement
            [ Discovery.max_statement "DWH" "RAW" "SESSIONS" "ts";
              Discovery.max_statement "DWH" "RAW" "CLICKS" "ts" ]
  then MaxValue 100
  else MaxRaises.

Definition sample_within_thirty_days (statement : string) (max_date : Z) : option bool :=
  Some (70 <=? max_date).

(** A table with two columns whose names differ in letter case only. *)
Definition clashing_columns : list Column :=
  [ {| name := "date"; type := "VARCHAR(10)" |};
    {| name := "DATE"; type := "DATE" |} ].



(** ** Strings: basic facts *)

Lemma append_assoc (a b c : string) : (a +:+ b) +:+ c = a +:+ (b +:+ c).
Proof.
  induction a as [|x a IH]; simpl; [reflexivity | by rewrite IH].
Qed.

Lemma append_nil_r (a : string) : a +:+ EmptyString = a.
Proof.
  induction a as [|x a IH]; simpl; [reflexivity | by rewrite IH].
Qed.

Lemma append_not_empty_r (a b : string) : b ≠ EmptyString → a +:+ b ≠ EmptyString.
Proof.
  destruct a; simpl; [tauto | discriminate].
Qed.

Lemma eqb_neq_false (a b : string) : a ≠ b → String.eqb a b = false.
Proof.
  intros Hne. by apply String.eqb_neq.
Qed.

(** Text comparison: bring both sides to right-nested form, let the literal
    prefixes compute, and peel equal prefixes. *)
Ltac str_norm :=
  unfold quoted, dq, nl in *; simpl in *;
  repeat (progress (rewrite ?append_assoc in *; simpl in *)).

Ltac str_peel H :=
  repeat first
    [ discriminate H
    | apply (String.app_inj _) in H
    | injection H as H ].

(** The split has one more part than the name has separators. *)
Lemma split_length (sep : ascii) (s : string) :
  length (split sep s) = S (count_char sep s).
Proof.
  induction s as [|c s IH]; simpl; [reflexivity|].
  destruct (Ascii.eqb c sep); simpl; [by rewrite IH|].
  destruct (split sep s) as [|part parts]; simpl in *; lia.
Qed.

Lemma split_three_part (model : string) :
  three_part model → ∃ db schema table, split "." model = [db; schema; table].
Proof.
  unfold three_part. intros Hcount.
  pose proof (split_length "." model) as Hlen. rewrite Hcount in Hlen.
  destruct (split "." model) as [|a [|b [|c [|d rest]]]]; simpl in Hlen; try lia.
  by exists a, b, c.
Qed.

Lemma unpack3_other (model : string) :
  ¬ three_part model → unpack3 (split "." model) = Raised ValueError.
Proof.
  unfold three_part. intros Hcount.
  pose proof (split_length "." model) as Hlen.
  destruct (split "." model) as [|a [|b [|c [|d rest]]]]; simpl in *; try reflexivity.
  exfalso. apply Hcount. lia.
Qed.

(** ** The compiler: shape of the statement *)

Lemma time_window_without_column (cfg : gmap string pyval) :
  truthy (dict_get cfg "date_window_col") = false →
  time_window_filter_content cfg = EmptyString.
Proof.
  unfold time_window_filter_content. by intros ->.
Qed.

(** A window applies exactly when the configuration names a date column and
    either sets the flag or gives a positive day count. *)
Lemma time_window_applies_iff (cfg : gmap string pyval) :
  time_window_filter_content cfg ≠ EmptyString
  ↔ truthy (dict_get cfg "date_window_col") = true
    ∧ (truthy (dict_get_or cfg "check_yesterday_only" (VBool false)) = true
       ∨ is_positive_int (dict_get cfg "time_window_days") = true).
Proof.
  unfold time_window_filter_content, yesterday_filter, trailing_days_filter.
  destruct (truthy (dict_get cfg "date_window_col")); [|split; [done | by intros [? _]]].
  destruct (truthy (dict_get_or cfg "check_yesterday_only" (VBool false))).
  - split; [auto|]. intros _. apply append_not_empty_r. simpl. discriminate.
  - destruct (is_positive_int (dict_get cfg "time_window_days")).
    + split; [auto|]. intros _. apply append_not_empty_r. simpl. discriminate.
    + split; [done|]. intros [_ [?|?]]; done.
Qed.

(** Every violation predicate the compiler builds is a non-empty text. *)
Lemma base_condition_truthy kind col cfg base :
  base_condition_content kind col cfg = Some base → truthy base = true.
Proof.
  unfold base_condition_content.
  repeat case_match; intros [= <-]; simpl; try done.
  - apply negb_true_iff, eqb_neq_false, append_not_empty_r. discriminate.
  - apply negb_true_iff, eqb_neq_false, append_not_empty_r. discriminate.
  - by apply negb_false_iff.
Qed.

(** The [WHERE] clause: the parenthesized violation predicate, then the
    parenthesized window joined by [AND]. *)
Lemma final_where_clause_shape base cfg :
  truthy base = true →
  final_where_clause (all_where_conditions base cfg)
  = " WHERE (" +:+ py_str base +:+ ")" +:+ window_suffix cfg.
Proof.
  intros Hbase. unfold all_where_conditions, window_suffix. rewrite Hbase.
  destruct (truthy (dict_get cfg "date_window_col")) eqn:Hcol.
  - destruct (String.eqb (time_window_filter_content cfg) EmptyString); simpl.
    + reflexivity.
    + by rewrite ?append_assoc.
  - by rewrite (time_window_without_column cfg Hcol).
Qed.

(** On a three-part name the compiler returns: [None] exactly where the
    violation predicate is refused, a statement otherwise. *)
Lemma generate_test_sql_parts kind model col cfg db schema table :
  split "." model = [db; schema; table] →
  generate_test_sql kind model col cfg
  = Returned
      (match base_condition_content kind col (default ∅ cfg) with
       | None => None
       | Some base =>
           let where_clause :=
             " WHERE (" +:+ py_str base +:+ ")" +:+ window_suffix (default ∅ cfg) in
           Some (if String.eqb kind "unique"
                 then unique_query (fmt_opt (quoted_column_name col))
                        (quoted_model_name db schema table) where_clause
                 else count_query (quoted_model_name db schema table) where_clause)
       end).
Proof.
  intros Hsplit. unfold generate_test_sql. rewrite Hsplit. simpl.
  destruct (base_condition_content kind col (default ∅ cfg)) as [base|] eqn:Hbase;
    [|reflexivity].
  rewrite (final_where_clause_shape _ _ (base_condition_truthy _ _ _ _ Hbase)).
  by destruct (String.eqb kind "unique").
Qed.

Lemma generate_test_sql_raises kind model col cfg :
  ¬ three_part model → generate_test_sql kind model col cfg = Raised ValueError.
Proof.
  intros Hparts. unfold generate_test_sql. by rewrite (unpack3_other _ Hparts).
Qed.

Lemma quoted_column_name_of col :
  col ≠ "N/A" → quoted_column_name col = Some (quoted col).
Proof.
  intros Hcol. unfold quoted_column_name. by rewrite (eqb_neq_false _ _ Hcol).
Qed.

Lemma base_condition_none_iff kind col cfg :
  base_condition_content kind col cfg = None
  ↔ (kind = "custom_sql" ∧ sql_missing cfg) ∨ ¬ recognized kind.
Proof.
  unfold base_condition_content, recognized, sql_missing.
  destruct (String.eqb_spec kind "not_null") as [->|Hnn].
  { split; [discriminate|].
    intros [[Hk _]|Hrec]; [discriminate Hk | exfalso; apply Hrec; by left]. }
  destruct (String.eqb_spec kind "unique") as [->|Huq].
  { split; [discriminate|].
    intros [[Hk _]|Hrec]; [discriminate Hk | exfalso; apply Hrec; by right; left]. }
  destruct (String.eqb_spec kind "custom_sql") as [->|Hcs].
  - destruct (truthy (dict_get cfg "sql")) eqn:Hsql; simpl; split.
    + discriminate.
    + intros [[_ Hf]|Hrec]; [discriminate Hf | exfalso; apply Hrec; by right; right].
    + intros _. by left.
    + done.
  - split; [|done]. intros _. right. intros [?|[?|?]]; done.
Qed.

Lemma base_condition_some_iff kind col cfg :
  is_Some (base_condition_content kind col cfg) ↔ compiles kind cfg.
Proof.
  rewrite <- not_eq_None_Some, base_condition_none_iff.
  unfold compiles, recognized, sql_missing.
  destruct (decide (kind = "not_null")) as [->|Hnn].
  { split; [by left|]. intros _ [[Hk _]|Hrec]; [discriminate Hk | apply Hrec; by left]. }
  destruct (decide (kind = "unique")) as [->|Huq].
  { split; [by right; left|].
    intros _ [[Hk _]|Hrec]; [discriminate Hk | apply Hrec; by right; left]. }
  destruct (decide (kind = "custom_sql")) as [->|Hcs].
  - split.
    + intros Hn. right; right. split; [done|]. intros Hf. apply Hn. by left.
    + intros [Hk|[Hk|[_ Hsql]]]; [discriminate Hk | discriminate Hk |].
      intros [[_ Hf]|Hrec]; [done | apply Hrec; by right; right].
  - split.
    + intros Hn. exfalso. apply Hn. right. intros [?|[?|?]]; done.
    + intros [?|[?|[? _]]]; done.
Qed.

(** The configurations without a usable condition, case by case. *)
Lemma sql_missing_cases (cfg : gmap string pyval) :
  sql_missing cfg
  ↔ cfg !! "sql" = None ∨ cfg !! "sql" = Some VNone
    ∨ cfg !! "sql" = Some (VStr EmptyString)
    ∨ cfg !! "sql" = Some (VBool false) ∨ cfg !! "sql" = Some (VInt 0).
Proof.
  unfold sql_missing, dict_get.
  destruct (cfg !! "sql") as [[|[|]|n|s]|]; simpl; split; intros H; try done.
  - tauto.
  - destruct H as [H|[H|[H|[H|H]]]]; done.
  - tauto.
  - apply negb_false_iff, Z.eqb_eq in H as ->. tauto.
  - destruct H as [H|[H|[H|[H|H]]]]; try done. by injection H as ->.
  - apply negb_false_iff, String.eqb_eq in H as ->. tauto.
  - destruct H as [H|[H|[H|[H|H]]]]; try done. by injection H as ->.
  - tauto.
Qed.

(** ** The compiler: the [unique] statement *)

(** C2. For a [unique] test on a column of a three-part table name the
    compiler returns one statement: an outer [COUNT( * )] over a sub-query that
    selects the quoted target column, keeps only the rows where that column
    [IS NOT NULL] (and, when a window applies, that lie in the window), groups
    by the column and keeps the groups [HAVING COUNT( * ) > 1].  The rows whose
    target column is NULL are filtered out before the grouping, so they form
    no group. *)
Theorem unique_counts_groups_of_non_null_duplicates model col cfg db schema table :
  split "." model = [db; schema; table] →
  col ≠ "N/A" →
  generate_test_sql "unique" model col cfg
  = Returned (Some (
      nl +:+ "        SELECT COUNT(*) FROM (" +:+
      nl +:+ "            SELECT " +:+ quoted col +:+
      nl +:+ "            FROM " +:+ quoted db +:+ "." +:+ quoted schema +:+ "." +:+ quoted table +:+
      nl +:+ "             WHERE (" +:+ quoted col +:+ " IS NOT NULL)"
                 +:+ window_suffix (default ∅ cfg) +:+
      nl +:+ "            GROUP BY " +:+ quoted col +:+
      nl +:+ "            HAVING COUNT(*) > 1" +:+
      nl +:+ "        )" +:+
      nl +:+ "        ")).
Proof.
  intros Hsplit Hcol.
  rewrite (generate_test_sql_parts _ _ _ _ _ _ _ Hsplit).
  unfold base_condition_content. rewrite (quoted_column_name_of _ Hcol). simpl.
  unfold unique_query, quoted_model_name.
  do 2 f_equal. str_norm. reflexivity.
Qed.

Lemma unique_counts_groups_example :
  generate_test_sql "unique" "DWH.PUBLIC.ACCOUNTS" "ID"
    (Some {[ "date_window_col" := VStr "UPDATEDAT"; "check_yesterday_only" := VBool true ]})
  = Returned (Some (
      nl +:+ "        SELECT COUNT(*) FROM (" +:+
      nl +:+ "            SELECT " +:+ quoted "ID" +:+
      nl +:+ "            FROM " +:+ quoted "DWH" +:+ "." +:+ quoted "PUBLIC" +:+ "."
                 +:+ quoted "ACCOUNTS" +:+
      nl +:+ "             WHERE (" +:+ quoted "ID" +:+ " IS NOT NULL) AND ("
                 +:+ quoted "UPDATEDAT" +:+ " >= CURRENT_DATE - INTERVAL '1 DAY' AND "
                 +:+ quoted "UPDATEDAT" +:+ " < CURRENT_DATE)" +:+
      nl +:+ "            GROUP BY " +:+ quoted "ID" +:+
      nl +:+ "            HAVING COUNT(*) > 1" +:+
      nl +:+ "        )" +:+
      nl +:+ "        ")).
Proof.
  rewrite (unique_counts_groups_of_non_null_duplicates
             "DWH.PUBLIC.ACCOUNTS" "ID" _ "DWH" "PUBLIC" "ACCOUNTS");
    [ | reflexivity | discriminate ].
  vm_compute. reflexivity.
Defined.

(** ** The compiler: where the time window goes *)

(** The violation predicate reads the configuration through the key [sql]
    only: the keys of the time window have no part in it. *)
Lemma base_condition_reads_sql_only kind col (cfg cfg' : gmap string pyval) :
  cfg' !! "sql" = cfg !! "sql" →
  base_condition_content kind col cfg' = base_condition_content kind col cfg.
Proof.
  intros Hsql. unfold base_condition_content, dict_get. by rewrite Hsql.
Qed.

(** The text of the violation predicate of a kind and configuration that
    compile. *)
Lemma compiled_violation kind col (cfg : gmap string pyval) :
  compiles kind cfg →
  ∃ base,
    base_condition_content kind col cfg = Some base
    ∧ py_str base
      = if String.eqb kind "not_null"
        then (if String.eqb col "N/A" then "None" else quoted col) +:+ " IS NULL"
        else if String.eqb kind "unique"
        then (if String.eqb col "N/A" then "None" else quoted col) +:+ " IS NOT NULL"
        else py_str (dict_get cfg "sql").
Proof.
  unfold compiles, sql_missing, base_condition_content, quoted_column_name.
  intros [->|[->|[-> Hsql]]]; cbn [String.eqb Ascii.eqb Bool.eqb andb].
  - eexists. split; [reflexivity|]. by destruct (String.eqb col "N/A").
  - eexists. split; [reflexivity|]. by destruct (String.eqb col "N/A").
  - apply not_false_is_true in Hsql. rewrite Hsql. by eexists.
Qed.

(** The window of a configuration that names a date column and sets the flag
    or gives a positive day count, as it is joined to the clause. *)
Lemma window_suffix_applies (cfg : gmap string pyval) :
  truthy (dict_get cfg "date_window_col") = true →
  truthy (dict_get_or cfg "check_yesterday_only" (VBool false)) = true
  ∨ is_positive_int (dict_get cfg "time_window_days") = true →
  window_suffix cfg
  = " AND ("
      +:+ (if truthy (dict_get_or cfg "check_yesterday_only" (VBool false))
           then quoted (py_str (dict_get cfg "date_window_col"))
                  +:+ " >= CURRENT_DATE - INTERVAL '1 DAY' AND "
                  +:+ quoted (py_str (dict_get cfg "date_window_col")) +:+ " < CURRENT_DATE"
           else quoted (py_str (dict_get cfg "date_window_col"))
                  +:+ " >= CURRENT_DATE - INTERVAL '"
                  +:+ py_str (dict_get cfg "time_window_days") +:+ " DAY'")
      +:+ ")".
Proof.
  intros Hcol Hmode.
  assert (Hwindow : time_window_filter_content cfg ≠ EmptyString)
    by (by apply time_window_applies_iff).
  unfold window_suffix. rewrite (eqb_neq_false _ _ Hwindow).
  unfold time_window_filter_content, yesterday_filter, trailing_days_filter.
  rewrite Hcol.
  destruct (truthy (dict_get_or cfg "check_yesterday_only" (VBool false))); [done|].
  destruct Hmode as [Hflag|Hdays]; [done|]. by rewrite Hdays.
Qed.

Lemma window_suffix_without_column (cfg : gmap string pyval) :
  window_suffix (delete "date_window_col" cfg) = EmptyString.
Proof.
  unfold window_suffix. rewrite time_window_without_column; [done|].
  unfold dict_get. by rewrite lookup_delete_eq.
Qed.

(** C3. When a time window applies to a specification (its configuration
    names a date column and either sets the flag or gives a positive day
    count), the [WHERE] clause of the statement is the parenthesized violation
    predicate, [AND], the parenthesized window predicate: the previous
    calendar day of the date column under the flag, its trailing days
    otherwise.  A [unique] test carries this clause inside its sub-query,
    between [FROM] and [GROUP BY]; every other test carries it after the
    table of its row count.  The window is no part of the violation
    predicate: without the date column the statement loses [AND] and the
    window, and the violation predicate stays as it is. *)
Theorem window_is_anded_next_to_the_violation_predicate
    kind model col (cfg : gmap string pyval) db schema table :
  split "." model = [db; schema; table] →
  compiles kind cfg →
  truthy (dict_get cfg "date_window_col") = true →
  truthy (dict_get_or cfg "check_yesterday_only" (VBool false)) = true
  ∨ is_positive_int (dict_get cfg "time_window_days") = true →
  let qcol := if String.eqb col "N/A" then "None" else quoted col in
  let violation :=
    if String.eqb kind "not_null" then qcol +:+ " IS NULL"
    else if String.eqb kind "unique" then qcol +:+ " IS NOT NULL"
    else py_str (dict_get cfg "sql") in
  let qdate := quoted (py_str (dict_get cfg "date_window_col")) in
  let window :=
    if truthy (dict_get_or cfg "check_yesterday_only" (VBool false))
    then qdate +:+ " >= CURRENT_DATE - INTERVAL '1 DAY' AND " +:+ qdate +:+ " < CURRENT_DATE"
    else qdate +:+ " >= CURRENT_DATE - INTERVAL '"
           +:+ py_str (dict_get cfg "time_window_days") +:+ " DAY'" in
  let qmodel := quoted db +:+ "." +:+ quoted schema +:+ "." +:+ quoted table in
  let statement (where_clause : string) :=
    if String.eqb kind "unique" then
      nl +:+ "        SELECT COUNT(*) FROM (" +:+
      nl +:+ "            SELECT " +:+ qcol +:+
      nl +:+ "            FROM " +:+ qmodel +:+
      nl +:+ "            " +:+ where_clause +:+
      nl +:+ "            GROUP BY " +:+ qcol +:+
      nl +:+ "            HAVING COUNT(*) > 1" +:+
      nl +:+ "        )" +:+
      nl +:+ "        "
    else "SELECT COUNT(*) FROM " +:+ qmodel +:+ where_clause in
  generate_test_sql kind model col (Some cfg)
  = Returned (Some (statement (" WHERE (" +:+ violation +:+ ") AND (" +:+ window +:+ ")")))
  ∧ generate_test_sql kind model col (Some (delete "date_window_col" cfg))
    = Returned (Some (statement (" WHERE (" +:+ violation +:+ ")"))).
Proof.
  intros Hsplit Hcompiles Hcol Hmode qcol violation qdate window qmodel statement.
  assert (Hqcol : fmt_opt (quoted_column_name col) = qcol).
  { unfold quoted_column_name, qcol. by destruct (String.eqb col "N/A"). }
  assert (Hsql : delete "date_window_col" cfg !! "sql" = cfg !! "sql")
    by (by rewrite lookup_delete_ne).
  destruct (compiled_violation kind col cfg Hcompiles) as (base & Hbase & Htext).
  fold qcol in Htext. fold violation in Htext.
  split.
  - rewrite (generate_test_sql_parts _ _ _ _ _ _ _ Hsplit).
    change (default ∅ (Some cfg)) with cfg. rewrite Hbase. cbv zeta. rewrite Htext, Hqcol.
    rewrite (window_suffix_applies cfg Hcol Hmode). fold qdate. fold window.
    unfold statement, unique_query, count_query, quoted_model_name. fold qmodel.
    clearbody violation window qcol qmodel.
    destruct (String.eqb kind "unique"); do 2 f_equal; str_norm; reflexivity.
  - rewrite (generate_test_sql_parts _ _ _ _ _ _ _ Hsplit).
    change (default ∅ (Some (delete "date_window_col" cfg)))
      with (delete "date_window_col" cfg).
    rewrite (base_condition_reads_sql_only _ _ _ _ Hsql), Hbase. cbv zeta.
    rewrite Htext, Hqcol, window_suffix_without_column.
    unfold statement, unique_query, count_query, quoted_model_name. fold qmodel.
    clearbody violation window qcol qmodel.
    destruct (String.eqb kind "unique"); do 2 f_equal; str_norm; reflexivity.
Qed.

Lemma window_is_anded_example :
  generate_test_sql "custom_sql" "DWH.PUBLIC.ACCOUNTS" "BALANCE"
    (Some {[ "sql" := VStr "BALANCE < 0"; "date_window_col" := VStr "UPDATEDAT";
             "time_window_days" := VInt 7 ]})
  = Returned (Some (
      "SELECT COUNT(*) FROM " +:+ quoted "DWH" +:+ "." +:+ quoted "PUBLIC" +:+ "."
        +:+ quoted "ACCOUNTS" +:+ " WHERE (BALANCE < 0) AND (" +:+ quoted "UPDATEDAT"
        +:+ " >= CURRENT_DATE - INTERVAL '7 DAY')"))
  ∧ generate_test_sql "unique" "DWH.PUBLIC.ACCOUNTS" "ID"
      (Some {[ "date_window_col" := VStr "UPDATEDAT"; "check_yesterday_only" := VBool true ]})
    = Returned (Some (
        nl +:+ "        SELECT COUNT(*) FROM (" +:+
        nl +:+ "            SELECT " +:+ quoted "ID" +:+
        nl +:+ "            FROM " +:+ quoted "DWH" +:+ "." +:+ quoted "PUBLIC" +:+ "."
                   +:+ quoted "ACCOUNTS" +:+
        nl +:+ "             WHERE (" +:+ quoted "ID" +:+ " IS NOT NULL) AND ("
                   +:+ quoted "UPDATEDAT" +:+ " >= CURRENT_DATE - INTERVAL '1 DAY' AND "
                   +:+ quoted "UPDATEDAT" +:+ " < CURRENT_DATE)" +:+
        nl +:+ "            GROUP BY " +:+ quoted "ID" +:+
        nl +:+ "            HAVING COUNT(*) > 1" +:+
        nl +:+ "        )" +:+
        nl +:+ "        ")).
Proof.
  split.
  - refine (proj1 (window_is_anded_next_to_the_violation_predicate
      "custom_sql" "DWH.PUBLIC.ACCOUNTS" "BALANCE"
      {[ "sql" := VStr "BALANCE < 0"; "date_window_col" := VStr "UPDATEDAT";
         "time_window_days" := VInt 7 ]}
      "DWH" "PUBLIC" "ACCOUNTS" _ _ _ _)).
    + reflexivity.
    + right; right. split; [reflexivity|]. intros Hmissing. vm_compute in Hmissing.
      discriminate Hmissing.
    + reflexivity.
    + right. reflexivity.
  - refine (proj1 (window_is_anded_next_to_the_violation_predicate
      "unique" "DWH.PUBLIC.ACCOUNTS" "ID"
      {[ "date_window_col" := VStr "UPDATEDAT"; "check_yesterday_only" := VBool true ]}
      "DWH" "PUBLIC" "ACCOUNTS" _ _ _ _)).
    + reflexivity.
    + right; left. reflexivity.
    + reflexivity.
    + left. reflexivity.
Defined.

(** ** The compiler: the three-part name *)




(** ** The executor: one record per test *)

Section ExecutorFacts.
Variable lower : string → string.
Variable execute : nat → string → Z → exec_outcome.
Variable utcnow : nat → string.

Abbreviation run_test := (run_test lower execute utcnow).
Abbreviation run_tests := (run_tests lower execute utcnow).
Abbreviation run_models := (run_models lower execute utcnow).
Abbreviation run_all_checks := (run_all_checks lower execute utcnow).

(** A statement the compiler returns is never the empty text. *)
Lemma compiled_statement_not_empty kind model col cfg sql :
  generate_test_sql kind model col cfg = Returned (Some sql) → no_sql (Some sql) = false.
Proof.
  unfold generate_test_sql.
  destruct (unpack3 (split "." model)) as [[[db schema] table]|e]; simpl; [|discriminate].
  destruct (base_condition_content kind col (default ∅ cfg)); [|discriminate].
  destruct (String.eqb kind "unique"); intros [= <-]; reflexivity.
Qed.

(** The record of a test, given what the compiler returned for it. *)
Lemma run_test_returned model n test sql :
  generate_test_sql (test_type test) model (column_name test) (Some (config test))
    = Returned sql →
  run_test model n test
  = Returned
      {| r_model_name := model; r_column_name := column_name test;
         r_test_type := test_type test;
         status := (if no_sql sql then ("error", -1)
                    else classify lower (execute n (fmt_opt sql) QUERY_TIMEOUT_SECONDS)).1;
         failing_rows := (if no_sql sql then ("error", -1)
                          else classify lower (execute n (fmt_opt sql) QUERY_TIMEOUT_SECONDS)).2;
         r_description := description test; timestamp := utcnow n |}.
Proof.
  intros Hsql. unfold Runner.run_test. rewrite Hsql. simpl.
  by destruct (if no_sql sql then _ else _).
Qed.

Lemma run_test_returns model n test :
  three_part model → ∃ r, run_test model n test = Returned r.
Proof.
  intros Hparts. destruct (split_three_part _ Hparts) as (db & schema & table & Hsplit).
  eexists. apply run_test_returned. by apply generate_test_sql_parts.
Qed.

(** The inner loop on a three-part name: one record per test, in order,
    the [j]-th one made at counter value [n + j + 1]. *)
Lemma run_tests_returns model n ts :
  three_part model →
  ∃ rs, run_tests model n ts = Returned ((n + length ts)%nat, rs)
        ∧ length rs = length ts
        ∧ ∀ j test, ts !! j = Some test →
            ∃ r, rs !! j = Some r ∧ run_test model (S (n + j)) test = Returned r.
Proof.
  intros Hparts. revert n. induction ts as [|test ts IH]; intros n.
  - exists []. simpl. rewrite Nat.add_0_r. split; [done|]. split; [done|].
    intros j t Hj. by rewrite lookup_nil in Hj.
  - destruct (run_test_returns model (S n) test Hparts) as [r Hr].
    destruct (IH (S n)) as (rs & Hrs & Hlen & Hlookup).
    exists (r :: rs). split; [|split].
    + cbn [Runner.run_tests]. rewrite Hr. simpl. rewrite Hrs. simpl.
      do 3 f_equal. lia.
    + simpl. by rewrite Hlen.
    + intros [|j] t Hj; simpl in Hj.
      * injection Hj as <-. exists r. by rewrite Nat.add_0_r.
      * destruct (Hlookup j t Hj) as (r' & Hr' & Hrun). exists r'. split; [done|].
        by replace (S (n + S j)) with (S (S n + j)) by lia.
Qed.

(** The outer loop when every table name has three parts. *)
Lemma run_models_returns n rules :
  Forall (fun model => three_part (model_name model)) rules →
  ∃ rs, run_models n rules = Returned rs
        ∧ length rs = length (all_tests rules)
        ∧ ∀ j model test, all_tests rules !! j = Some (model, test) →
            ∃ r, rs !! j = Some r ∧ run_test model (S (n + j)) test = Returned r.
Proof.
  intros Hall. revert n. induction Hall as [|model rules Hparts _ IH]; intros n.
  - exists []. split; [done|]. split; [done|].
    intros j m t Hj. by destruct j.
  - destruct (run_tests_returns (model_name model) n (tests model) Hparts)
      as (rs & Hrs & Hlen & Hlookup).
    destruct (IH (n + length (tests model))%nat) as (rs' & Hrs' & Hlen' & Hlookup').
    exists (rs ++ rs'). split; [|split].
    + cbn [Runner.run_models]. rewrite Hrs. simpl. by rewrite Hrs'.
    + unfold all_tests in *. rewrite bind_cons, !length_app, length_fmap. lia.
    + intros j m t Hj. unfold all_tests in Hj. rewrite bind_cons in Hj.
      apply lookup_app_Some in Hj as [Hj|[Hge Hj]].
      * rewrite list_lookup_fmap in Hj.
        destruct (tests model !! j) as [t'|] eqn:Ht; simpl in Hj; [|discriminate].
        injection Hj as <- <-.
        destruct (Hlookup j t' Ht) as (r & Hr & Hrun). exists r. split; [|done].
        by apply lookup_app_l_Some.
      * rewrite length_fmap in Hge, Hj.
        destruct (Hlookup' _ m t Hj) as (r & Hr & Hrun). exists r. split.
        -- rewrite lookup_app_r by lia. by rewrite Hlen.
        -- by replace (S (n + j)) with (S (n + length (tests model) + (j - length (tests model)))) by lia.
Qed.

Lemma total_tests_all_tests rules : total_tests rules = length (all_tests rules).
Proof.
  unfold all_tests. induction rules as [|model rules IH]; [done|].
  rewrite bind_cons, length_app, length_fmap. simpl. by rewrite IH.
Qed.

(** [run_all_checks] when every table name has three parts: it returns, with
    one record per test in the order of the tests. *)
Lemma run_all_checks_returns rules :
  Forall (fun model => three_part (model_name model)) rules →
  ∃ results, run_all_checks rules = Returned results
        ∧ length results = length (all_tests rules)
        ∧ ∀ j model test, all_tests rules !! j = Some (model, test) →
            ∃ r, results !! j = Some r ∧ run_test model (S j) test = Returned r.
Proof.
  intros Hall. unfold Runner.run_all_checks. rewrite total_tests_all_tests.
  destruct (Nat.eqb_spec (length (all_tests rules)) 0) as [Hzero|Hpos].
  - exists []. split; [done|]. split; [by rewrite Hzero|].
    intros j m t Hj. apply lookup_lt_Some in Hj. lia.
  - apply run_models_returns, Hall.
Qed.

(** A table name that does not have three parts aborts the run at the
    first test of that table: the exception of the compiler is not caught. *)
Lemma malformed_name_aborts_the_run model test ts rest :
  ¬ three_part model →
  run_all_checks ({| model_name := model; tests := test :: ts |} :: rest)
  = Raised ValueError.
Proof.
  intros Hparts. unfold Runner.run_all_checks. cbn [total_tests foldr tests length].
  cbn [Nat.add Nat.eqb Runner.run_models Runner.run_tests model_name tests].
  unfold Runner.run_test. by rewrite (generate_test_sql_raises _ _ _ _ Hparts).
Qed.



End ExecutorFacts.

(** ** The generator: what one column contributes *)

Lemma filter_none {A} (P : A → Prop) `{!∀ x, Decision (P x)} (l : list A) :
  Forall (fun x => ¬ P x) l → filter P l = [].
Proof.
  induction 1 as [|x l Hx _ IH]; [done|]. by rewrite filter_cons_False.
Qed.

Lemma mem_true_iff (x : string) (xs : list string) : mem x xs = true ↔ x ∈ xs.
Proof.
  unfold mem. rewrite existsb_exists. split.
  - intros (y & Hin & Heq). apply String.eqb_eq in Heq as ->. by apply list_elem_of_In.
  - intros Hin. exists x. split; [by apply list_elem_of_In | apply String.eqb_refl].
Qed.

(** A primary-key name is no timestamp name and is not EMAIL. *)
Lemma primary_key_name_only u :
  mem u primary_keys = true →
  mem u timestamp_columns = false ∧ String.eqb u "EMAIL" = false.
Proof.
  rewrite mem_true_iff. unfold primary_keys. rewrite !elem_of_cons, elem_of_nil.
  intros [->|[->|[->|[->|[]]]]]; split; reflexivity.
Qed.

(** A name that ends in _ID, or UTM_KEY, is no timestamp name and is not
    EMAIL. *)
Lemma foreign_key_name_only u :
  endswith u "_ID" || mem u ["UTM_KEY"] = true →
  mem u timestamp_columns = false ∧ String.eqb u "EMAIL" = false.
Proof.
  intros Hfk. split.
  - destruct (mem u timestamp_columns) eqn:Hts; [|reflexivity].
    apply mem_true_iff in Hts. unfold timestamp_columns in Hts.
    rewrite !elem_of_cons, elem_of_nil in Hts.
    destruct Hts as [->|[->|[->|[->|[->|[->|[->|[->|[->|[->|[]]]]]]]]]]];
      discriminate Hfk.
  - destruct (String.eqb_spec u "EMAIL") as [->|]; [discriminate Hfk | reflexivity].
Qed.

Section GeneratorFacts.
Variable upper : string → string.
Variable now : datetime.
Variable table_name : string.
Variable prefix : string.
Variable cfg : gmap string pyval.

(** Unfold the rules and split on their conditions. *)
Ltac rule_cases :=
  unfold rule_1, rule_2, rule_3, rule_4, rule_5, rule_6, rule_7, rule_8, rule_9,
    rule_10, rule_11, rule_12, rule_13, rule_14, rule_15;
  cbv zeta; repeat case_match.

Ltac each_rule tac :=
  repeat (apply Forall_app; split); tac.

(** Every test of the loop body names the column of the iteration. *)
Lemma column_tests_column_name c :
  Forall (fun t => column_name t = name c) (column_tests upper now table_name prefix cfg c).
Proof.
  unfold column_tests. each_rule ltac:(rule_cases; repeat constructor).
Qed.

(** Rules 4 to 15 emit [custom_sql] tests only. *)
Lemma later_rules_custom_sql c :
  Forall (fun t => test_type t = "custom_sql")
    (rule_4 upper prefix cfg c ++ rule_5 upper prefix cfg c ++ rule_6 upper prefix cfg c
       ++ rule_7 upper prefix cfg c ++ rule_8 upper now prefix cfg c
       ++ rule_9 upper prefix cfg c ++ rule_10 upper prefix cfg c
       ++ rule_11 upper prefix cfg c ++ rule_12 upper prefix cfg c
       ++ rule_13 upper prefix cfg c ++ rule_14 upper prefix cfg c
       ++ rule_15 upper prefix cfg c).
Proof.
  each_rule ltac:(rule_cases; repeat constructor).
Qed.

(** So do the rules that follow the loop. *)
Lemma after_loop_custom_sql cols :
  Forall (fun t => test_type t = "custom_sql")
    (cross_column_tests upper prefix cfg cols ++ rule_16 upper table_name prefix cfg cols).
Proof.
  unfold cross_column_tests, cross_date_id, cross_created_updated, cross_impression_order,
    cross_date_in_range, cross_clicks, rule_16.
  cbv zeta. each_rule ltac:(repeat case_match; repeat constructor).
Qed.

Lemma tests_of_kind_custom_only kind col ts :
  kind ≠ "custom_sql" →
  Forall (fun t => test_type t = "custom_sql") ts → tests_of_kind kind col ts = [].
Proof.
  intros Hkind Hts. apply filter_none. eapply Forall_impl; [exact Hts|].
  intros t Ht [Hk _]. congruence.
Qed.

Lemma tests_of_kind_other_column kind col c :
  name c ≠ col →
  tests_of_kind kind col (column_tests upper now table_name prefix cfg c) = [].
Proof.
  intros Hne. apply filter_none.
  eapply Forall_impl; [apply column_tests_column_name|].
  intros t Ht [_ Hc]. congruence.
Qed.

(** The tests of a kind for a column of a table with distinct column names
    come from the iteration of that column. *)
Lemma tests_of_kind_loop kind cols c :
  NoDup (name <$> cols) → c ∈ cols →
  tests_of_kind kind (name c) (cols ≫= column_tests upper now table_name prefix cfg)
  = tests_of_kind kind (name c) (column_tests upper now table_name prefix cfg c).
Proof.
  intros Hnodup Hin. induction cols as [|c0 cols IH]; [by apply elem_of_nil in Hin|].
  rewrite fmap_cons in Hnodup. apply NoDup_cons in Hnodup as [Hfresh Hnodup].
  rewrite bind_cons. unfold tests_of_kind at 1. rewrite filter_app.
  fold (tests_of_kind kind (name c) (column_tests upper now table_name prefix cfg c0)).
  fold (tests_of_kind kind (name c) (cols ≫= column_tests upper now table_name prefix cfg)).
  apply elem_of_cons in Hin as [->|Hin].
  - assert (Hrest : tests_of_kind kind (name c0)
              (cols ≫= column_tests upper now table_name prefix cfg) = []).
    { apply filter_none, Forall_forall. intros t Ht [_ Hname].
      apply list_elem_of_bind in Ht as (c' & Ht & Hc').
      pose proof (column_tests_column_name c') as Hall.
      rewrite Forall_forall in Hall. specialize (Hall t Ht).
      apply Hfresh. rewrite <- Hname, Hall. by apply list_elem_of_fmap_2. }
    by rewrite Hrest, app_nil_r.
  - rewrite (IH Hnodup Hin), tests_of_kind_other_column; [done|].
    intros Heq. apply Hfresh. rewrite Heq. by apply list_elem_of_fmap_2.
Qed.

(** Tests of a kind other than [custom_sql] come from Rules 1 to 3. *)
Lemma tests_of_kind_first_rules kind col c :
  kind ≠ "custom_sql" →
  tests_of_kind kind col (column_tests upper now table_name prefix cfg c)
  = tests_of_kind kind col
      (rule_1 upper prefix cfg c ++ rule_2 upper table_name prefix cfg c
         ++ rule_3 upper prefix cfg c).
Proof.
  intros Hkind.
  pose proof (tests_of_kind_custom_only kind col _ Hkind (later_rules_custom_sql c))
    as Hlater.
  unfold column_tests.
  match goal with |- context [rule_3 _ _ _ _ ++ ?l] => set (later := l) in * end.
  unfold tests_of_kind in *. by rewrite !filter_app, Hlater, !app_nil_r.
Qed.

(** The key tests of a primary-key column. *)
Lemma primary_key_column_tests c :
  is_primary_key (upper (name c)) = true →
  tests_of_kind "not_null" (name c) (column_tests upper now table_name prefix cfg c)
    = [primary_key_not_null prefix cfg c]
  ∧ tests_of_kind "unique" (name c) (column_tests upper now table_name prefix cfg c)
    = [primary_key_unique prefix cfg c].
Proof.
  intros Hpk. destruct (primary_key_name_only _ Hpk) as [Hts Hemail].
  rewrite !tests_of_kind_first_rules by done.
  unfold rule_1, rule_2, rule_3. cbv zeta. rewrite Hpk, Hts, Hemail, !app_nil_r.
  unfold tests_of_kind. split.
  - rewrite filter_cons_True by done.
    by rewrite filter_cons_False by (intros [? _]; done).
  - rewrite filter_cons_False by (intros [? _]; done).
    by rewrite filter_cons_True by done.
Qed.

(** Without any assumption on the column list: a primary-key name gets one
    [not_null] test and one [unique] test per column of that name. *)
Lemma primary_key_tests_per_column kind col cols :
  kind = "not_null" ∨ kind = "unique" →
  is_primary_key (upper col) = true →
  length (tests_of_kind kind col (cols ≫= column_tests upper now table_name prefix cfg))
  = length (filter (fun c => name c = col) cols).
Proof.
  intros Hkind Hpk. induction cols as [|c cols IH]; [reflexivity|].
  rewrite bind_cons. unfold tests_of_kind at 1. rewrite filter_app, length_app.
  fold (tests_of_kind kind col (cols ≫= column_tests upper now table_name prefix cfg)).
  fold (tests_of_kind kind col (column_tests upper now table_name prefix cfg c)).
  rewrite IH. destruct (decide (name c = col)) as [<-|Hne].
  - rewrite filter_cons_True by done.
    destruct (primary_key_column_tests c Hpk) as [Hnn Huq].
    by destruct Hkind as [->| ->]; [rewrite Hnn | rewrite Huq].
  - rewrite filter_cons_False by done.
    by rewrite tests_of_kind_other_column.
Qed.

(** The key tests of a column that the [elif] of Rule 1 takes. *)
Lemma foreign_key_column_tests c :
  is_primary_key (upper (name c)) = false →
  is_foreign_key_name (upper (name c)) = true →
  tests_of_kind "not_null" (name c) (column_tests upper now table_name prefix cfg c)
    = [foreign_key_not_null prefix cfg c]
  ∧ tests_of_kind "unique" (name c) (column_tests upper now table_name prefix cfg c) = [].
Proof.
  intros Hpk Hfk. destruct (foreign_key_name_only _ Hfk) as [Hts Hemail].
  rewrite !tests_of_kind_first_rules by done.
  unfold rule_1, rule_2, rule_3. cbv zeta. rewrite Hpk, Hfk, Hts, Hemail, !app_nil_r.
  unfold tests_of_kind. split.
  - by rewrite filter_cons_True by done.
  - by rewrite filter_cons_False by (intros [? _]; done).
Qed.

(** Where the foreign-key test can come from: only the [elif] of Rule 1. *)
Lemma foreign_key_test_origin c c' :
  foreign_key_not_null prefix cfg c ∈ column_tests upper now table_name prefix cfg c' →
  name c' = name c
  ∧ is_primary_key (upper (name c')) = false
  ∧ is_foreign_key_name (upper (name c')) = true.
Proof.
  intros Hin.
  assert (Hname : name c' = name c).
  { pose proof (column_tests_column_name c') as Hall.
    rewrite Forall_forall in Hall. by rewrite <- (Hall _ Hin). }
  split; [exact Hname|].
  unfold column_tests in Hin.
  apply elem_of_app in Hin as [Hin|Hin];
    [|apply elem_of_app in Hin as [Hin|Hin]; [|apply elem_of_app in Hin as [Hin|Hin]]].
  - unfold rule_1 in Hin. cbv zeta in Hin.
    destruct (is_primary_key (upper (name c'))); [|destruct (is_foreign_key_name _)].
    + apply elem_of_cons in Hin as [Heq|Hin]; [|apply list_elem_of_singleton in Hin as Heq];
        unfold foreign_key_not_null, primary_key_not_null, primary_key_unique,
          not_null_test, unique_test in Heq; injection Heq as _ Heq; str_peel Heq.
    + done.
    + by apply elem_of_nil in Hin.
  - exfalso. unfold rule_2 in Hin. cbv zeta in Hin.
    repeat case_match; rewrite ?elem_of_cons, ?elem_of_nil in Hin;
      destruct_or?; try done;
      match goal with
      | Heq : foreign_key_not_null _ _ _ = _ |- _ =>
          unfold foreign_key_not_null, timestamp_not_null, future_date_test,
            not_null_test, custom_sql_test in Heq;
          first [ discriminate Heq | injection Heq as _ Heq; str_peel Heq ]
      end.
  - exfalso. unfold rule_3 in Hin. cbv zeta in Hin.
    repeat case_match; rewrite ?elem_of_cons, ?elem_of_nil in Hin;
      destruct_or?; try done;
      match goal with
      | Heq : foreign_key_not_null _ _ _ = _ |- _ =>
          unfold foreign_key_not_null, not_null_test, custom_sql_test in Heq;
          first [ discriminate Heq | injection Heq as _ Heq; str_peel Heq ]
      end.
  - exfalso. pose proof (later_rules_custom_sql c') as Hall.
    rewrite Forall_forall in Hall. specialize (Hall _ Hin). discriminate Hall.
Qed.








(** Outside a date dimension the future-date test of a timestamp column is
    emitted, and it is a future-date specification. *)
Lemma future_date_test_is_future_date_spec c :
  is_future_date_spec (future_date_test prefix cfg c).
Proof.
  split; [reflexivity|]. unfold future_date_test, custom_sql_test, with_sql.
  cbn [config column_name]. by rewrite lookup_insert_eq.
Qed.

(** The clock reaches the tests of a column through the YEAR branch of Rule 8
    only. *)
Lemma column_tests_clock now' c :
  year now = year now' ∨ reads_the_clock upper c = false →
  column_tests upper now table_name prefix cfg c
  = column_tests upper now' table_name prefix cfg c.
Proof.
  intros Hclock. unfold column_tests. do 7 f_equal.
  unfold rule_8, reads_the_clock in *. cbv zeta.
  destruct (is_numeric_type upper (type c)); [|reflexivity].
  repeat (case_match; [reflexivity|]).
  destruct (String.eqb (upper (name c)) "YEAR"); [|reflexivity].
  destruct Hclock as [->|Hno]; [reflexivity | discriminate Hno].
Qed.

End GeneratorFacts.

(** ** The generator: the whole list *)

Lemma bind_ext_in {A B} (f g : A → list B) (l : list A) :
  (∀ x, x ∈ l → f x = g x) → l ≫= f = l ≫= g.
Proof.
  induction l as [|x l IH]; intros Hfg; [done|].
  rewrite !bind_cons, (Hfg x) by apply list_elem_of_here.
  rewrite IH; [done|]. intros y Hy. apply Hfg. by apply list_elem_of_further.
Qed.

Lemma tests_of_kind_app kind col ts ts' :
  tests_of_kind kind col (ts ++ ts') = tests_of_kind kind col ts ++ tests_of_kind kind col ts'.
Proof.
  apply filter_app.
Qed.

Lemma is_foreign_key_name_iff u :
  is_foreign_key_name u = true ↔ endswith u "_ID" = true ∨ u = "UTM_KEY".
Proof.
  unfold is_foreign_key_name. rewrite orb_true_iff, mem_true_iff, list_elem_of_singleton.
  reflexivity.
Qed.


Section GeneratedTests.
Variable upper : string → string.
Variable now : datetime.
Variable table_name : string.
Variable columns : list Column.
Variable primary_date_column : option string.
Variable check_yesterday_only : bool.

Let out := generated_tests upper now table_name columns primary_date_column check_yesterday_only.
Let cfg := base_test_config primary_date_column check_yesterday_only.
Let prefix := description_prefix_base primary_date_column check_yesterday_only.

Lemma generated_tests_elem t :
  t ∈ out
  ↔ (∃ c, c ∈ columns ∧ t ∈ column_tests upper now table_name prefix cfg c)
    ∨ t ∈ cross_column_tests upper prefix cfg columns
            ++ rule_16 upper table_name prefix cfg columns.
Proof.
  unfold out, generated_tests. rewrite elem_of_app, list_elem_of_bind.
  split; (intros [(c & H1 & H2)|H]; [left; exists c; tauto | by right]).
Qed.

Lemma generated_tests_of_kind kind c :
  kind ≠ "custom_sql" → NoDup (name <$> columns) → c ∈ columns →
  tests_of_kind kind (name c) out
  = tests_of_kind kind (name c) (column_tests upper now table_name prefix cfg c).
Proof.
  intros Hkind Hnodup Hin. unfold out, generated_tests.
  rewrite tests_of_kind_app.
  rewrite (tests_of_kind_loop upper now table_name _ _ kind columns c Hnodup Hin).
  rewrite (tests_of_kind_custom_only kind (name c) _ Hkind
             (after_loop_custom_sql upper table_name _ _ columns)).
  by rewrite app_nil_r.
Qed.


(** C1. A column of the table whose uppercased name is one of ID, USER_ID,
    DATE_ID, CAMPAIGN_ID gets exactly one [not_null] test and exactly one
    [unique] test among all the tests of the table: the two that Rule 1
    appends for a primary key.  The column names of a table are distinct; for
    an arbitrary list the tests of each kind are as many as the columns of
    that name. *)
Theorem primary_key_gets_one_not_null_and_one_unique c :
  c ∈ columns →
  upper (name c) ∈ ["ID"; "USER_ID"; "DATE_ID"; "CAMPAIGN_ID"] →
  (NoDup (name <$> columns) →
   tests_of_kind "not_null" (name c) out = [primary_key_not_null prefix cfg c]
   ∧ tests_of_kind "unique" (name c) out = [primary_key_unique prefix cfg c])
  ∧ length (tests_of_kind "not_null" (name c) out)
    = length (filter (fun c' => name c' = name c) columns)
  ∧ length (tests_of_kind "unique" (name c) out)
    = length (filter (fun c' => name c' = name c) columns).
Proof.
  intros Hin Hpk. apply mem_true_iff in Hpk. split.
  - intros Hnodup. rewrite !generated_tests_of_kind by done.
    by apply primary_key_column_tests.
  - pose proof (after_loop_custom_sql upper table_name
                  (description_prefix_base primary_date_column check_yesterday_only)
                  (base_test_config primary_date_column check_yesterday_only) columns)
      as Hafter.
    assert (Hnn : "not_null" ≠ "custom_sql") by done.
    assert (Huq : "unique" ≠ "custom_sql") by done.
    unfold out, generated_tests.
    rewrite (tests_of_kind_app "not_null" _ (columns ≫= _)),
      (tests_of_kind_app "unique" _ (columns ≫= _)), !length_app.
    rewrite (tests_of_kind_custom_only _ (name c) _ Hnn Hafter).
    rewrite (tests_of_kind_custom_only _ (name c) _ Huq Hafter).
    rewrite !Nat.add_0_r.
    split; apply primary_key_tests_per_column; auto.
Qed.

(** C9. The foreign-key test of a column of the table is among the tests
    exactly when the uppercased name of the column ends with _ID or is
    UTM_KEY, and is not a primary-key name.  Such a column (in a table with
    distinct column names) has that test as its only [not_null] test and has
    no [unique] test; a primary-key column never gets the foreign-key test. *)
Theorem foreign_key_rule c :
  c ∈ columns →
  (foreign_key_not_null prefix cfg c ∈ out
   ↔ (endswith (upper (name c)) "_ID" = true ∨ upper (name c) = "UTM_KEY")
     ∧ is_primary_key (upper (name c)) = false)
  ∧ (NoDup (name <$> columns) →
     (endswith (upper (name c)) "_ID" = true ∨ upper (name c) = "UTM_KEY") →
     is_primary_key (upper (name c)) = false →
     tests_of_kind "not_null" (name c) out = [foreign_key_not_null prefix cfg c]
     ∧ tests_of_kind "unique" (name c) out = [])
  ∧ (is_primary_key (upper (name c)) = true → foreign_key_not_null prefix cfg c ∉ out).
Proof.
  intros Hin.
  assert (Hiff : foreign_key_not_null prefix cfg c ∈ out
                 ↔ (endswith (upper (name c)) "_ID" = true ∨ upper (name c) = "UTM_KEY")
                   ∧ is_primary_key (upper (name c)) = false).
  { rewrite <- is_foreign_key_name_iff, generated_tests_elem. split.
    - intros [(c' & _ & Hc')|Hafter].
      + apply foreign_key_test_origin in Hc' as (Hname & Hpk & Hfk).
        rewrite Hname in Hpk, Hfk. done.
      + pose proof (after_loop_custom_sql upper table_name prefix cfg columns) as Hall.
        rewrite Forall_forall in Hall. specialize (Hall _ Hafter). discriminate Hall.
    - intros [Hfk Hpk]. left. exists c. split; [done|].
      unfold column_tests, rule_1. cbv zeta. rewrite Hpk, Hfk.
      apply elem_of_app. left. apply list_elem_of_here. }
  split; [exact Hiff|]. split.
  - intros Hnodup Hfk Hpk. apply is_foreign_key_name_iff in Hfk.
    rewrite !generated_tests_of_kind by done.
    by apply foreign_key_column_tests.
  - intros Hpk Hmem. apply Hiff in Hmem as [_ Hno]. congruence.
Qed.



(** Outside a date dimension the future-date test of a timestamp-like column
    is emitted. *)
Lemma other_tables_have_the_future_date_test c :
  contains "DIM_DATES" (upper table_name) = false →
  c ∈ columns → upper (name c) ∈ timestamp_columns →
  future_date_test prefix cfg c ∈ out
  ∧ is_future_date_spec (future_date_test prefix cfg c).
Proof.
  intros Hdim Hin Hts. apply mem_true_iff in Hts.
  split; [|apply future_date_test_is_future_date_spec].
  apply generated_tests_elem. left. exists c. split; [done|].
  unfold column_tests, rule_2. cbv zeta. rewrite Hts, Hdim.
  apply elem_of_app. right. apply elem_of_app. left.
  apply list_elem_of_further, list_elem_of_here.
Qed.

(** C8, as the code has it.  Two calls with the same table name, columns,
    date column and flag return the same model, test for test and in the same
    order, when the clock shows the same year at both calls, or when no
    column of the table is a numeric column named YEAR. *)
Theorem same_year_same_tests now' :
  year now = year now' ∨ Forall (fun c => reads_the_clock upper c = false) columns →
  generate_rules_for_table upper now table_name columns primary_date_column
    check_yesterday_only
  = generate_rules_for_table upper now' table_name columns primary_date_column
      check_yesterday_only.
Proof.
  intros Hclock. unfold generate_rules_for_table, generated_tests. do 2 f_equal.
  apply bind_ext_in. intros c Hc. apply column_tests_clock.
  destruct Hclock as [Hyear|Hnone]; [by left | right].
  rewrite Forall_forall in Hnone. by apply Hnone.
Qed.

End GeneratedTests.

(** ** Worked examples *)

Lemma accounts_columns_distinct : NoDup (name <$> accounts_columns).
Proof.
  apply (bool_decide_unpack _). vm_compute. exact I.
Qed.

Lemma primary_key_example :
  let out := generated_tests ascii_upper sample_now "DWH.PUBLIC.ACCOUNTS"
               accounts_columns (Some "updatedAt") true in
  test_type <$> out
    = ["not_null"; "unique"; "not_null"; "not_null"; "custom_sql"; "not_null"; "custom_sql"]
  ∧ column_name <$> out
    = ["id"; "id"; "referrer_id"; "email"; "email"; "updatedAt"; "updatedAt"]
  ∧ length (tests_of_kind "not_null" "id" out) = 1%nat
  ∧ length (tests_of_kind "unique" "id" out) = 1%nat.
Proof.
  cbv zeta. split; [reflexivity|]. split; [reflexivity|].
  destruct (primary_key_gets_one_not_null_and_one_unique ascii_upper sample_now
              "DWH.PUBLIC.ACCOUNTS" accounts_columns (Some "updatedAt") true
              {| name := "id"; type := "NUMBER(38,0)" |}) as [Hone _].
  - apply list_elem_of_here.
  - apply list_elem_of_here.
  - destruct (Hone accounts_columns_distinct) as [Hnn Huq].
    cbn [name] in Hnn, Huq. by rewrite Hnn, Huq.
Defined.

Lemma foreign_key_example :
  let out := generated_tests ascii_upper sample_now "DWH.PUBLIC.ACCOUNTS"
               accounts_columns (Some "updatedAt") true in
  length (tests_of_kind "not_null" "referrer_id" out) = 1%nat
  ∧ tests_of_kind "unique" "referrer_id" out = [].
Proof.
  cbv zeta.
  destruct (foreign_key_rule ascii_upper sample_now
              "DWH.PUBLIC.ACCOUNTS" accounts_columns (Some "updatedAt") true
              {| name := "referrer_id"; type := "NUMBER(38,0)" |}) as (_ & Hkinds & _).
  - apply list_elem_of_further, list_elem_of_here.
  - destruct Hkinds as [Hnn Huq].
    + exact accounts_columns_distinct.
    + left. reflexivity.
    + reflexivity.
    + cbn [name] in Hnn, Huq. by rewrite Hnn, Huq.
Defined.



Lemma same_year_example :
  generate_rules_for_table ascii_upper {| year := 2026; month := 1; day := 1 |}
    "DWH.PUBLIC.DIM_DATES" dim_dates_columns (Some "DATE") false
  = generate_rules_for_table ascii_upper {| year := 2026; month := 12; day := 31 |}
      "DWH.PUBLIC.DIM_DATES" dim_dates_columns (Some "DATE") false.
Proof.
  apply same_year_same_tests. left. reflexivity.
Defined.

(** The claim as worded fails across a change of year: the same table, asked
    on the last day of 2025 and on the first day of 2026, gets a different
    YEAR test. *)
Lemma idempotence_counterexample :
  description <$> tests (generate_rules_for_table ascii_upper
                           {| year := 2025; month := 12; day := 31 |}
                           "DWH.PUBLIC.CALENDAR"
                           [ {| name := "YEAR"; type := "NUMBER(4,0)" |} ] None false)
    = [ "Auto-generated: YEAR should be within business-relevant range (2015-2035)." ]
  ∧ description <$> tests (generate_rules_for_table ascii_upper
                             {| year := 2026; month := 1; day := 1 |}
                             "DWH.PUBLIC.CALENDAR"
                             [ {| name := "YEAR"; type := "NUMBER(4,0)" |} ] None false)
    = [ "Auto-generated: YEAR should be within business-relevant range (2015-2036)." ].
Proof.
  split; reflexivity.
Qed.





(** ** Discovery: the date column of a table *)

Import Discovery.

Section DateColumnFacts.
Variable upper : string → string.
Variable cols : list Column.

Abbreviation date_names := (upper <$> date_type_cols upper cols).

Lemma date_type_cols_elem n :
  n ∈ date_type_cols upper cols
  ↔ ∃ c, c ∈ cols ∧ name c = n ∧ is_date_type upper (type c) = true.
Proof.
  unfold date_type_cols. rewrite list_elem_of_fmap. split.
  - intros (c & -> & Hc). apply list_elem_of_filter in Hc as [Hty Hc]. by exists c.
  - intros (c & Hc & <- & Hty). exists c. split; [done|]. by apply list_elem_of_filter.
Qed.

(** Where a name is among the uppercased names, [next] finds a column. *)
Lemma next_named_found p :
  mem p (col_names upper cols) = true →
  ∃ c, head (filter (fun c => upper (name c) = p) cols) = Some c
       ∧ next_named upper cols p = Some (name c)
       ∧ c ∈ cols ∧ upper (name c) = p.
Proof.
  intros Hmem. apply mem_true_iff in Hmem. unfold col_names in Hmem.
  apply list_elem_of_fmap in Hmem as (c0 & -> & Hc0).
  assert (Hin : c0 ∈ filter (fun c => upper (name c) = upper (name c0)) cols)
    by by apply list_elem_of_filter.
  unfold next_named.
  destruct (filter (fun c => upper (name c) = upper (name c0)) cols) as [|c rest] eqn:Hf.
  { by apply elem_of_nil in Hin. }
  exists c. split; [done|]. split; [done|].
  assert (Hc : c ∈ filter (fun c => upper (name c) = upper (name c0)) cols)
    by (rewrite Hf; apply list_elem_of_here).
  by apply list_elem_of_filter in Hc as [? ?].
Qed.

(** A name of the priority list is passed over exactly when no column of a
    date type has it as its uppercased name. *)
Lemma by_priority_step p rest :
  by_priority upper cols (p :: rest)
  = if mem p date_names
    then match next_named upper cols p with
         | Some n => DateColumn (Some n)
         | None => RaisesStopIteration
         end
    else by_priority upper cols rest.
Proof.
  cbn [by_priority].
  destruct (mem p (col_names upper cols)) eqn:Hmem.
  - destruct (next_named_found p Hmem) as (c & _ & -> & _ & Hup). by rewrite Hup.
  - destruct (mem p date_names) eqn:Hdate; [|done].
    apply mem_true_iff, list_elem_of_fmap in Hdate as (n & -> & Hn).
    apply date_type_cols_elem in Hn as (c & Hc & <- & _).
    assert (mem (upper (name c)) (col_names upper cols) = true) as Hin.
    { apply mem_true_iff. unfold col_names. apply list_elem_of_fmap. by exists c. }
    congruence.
Qed.

Lemma by_priority_cases priority :
  (∃ i p c,
      priority !! i = Some p
      ∧ (∀ j q, (j < i)%nat → priority !! j = Some q → q ∉ date_names)
      ∧ p ∈ date_names
      ∧ head (filter (fun c => upper (name c) = p) cols) = Some c
      ∧ by_priority upper cols priority = DateColumn (Some (name c)))
  ∨ ((∀ q, q ∈ priority → q ∉ date_names)
     ∧ by_priority upper cols priority = DateColumn (head (date_type_cols upper cols))).
Proof.
  induction priority as [|p rest IH].
  - right. split; [|done]. intros q Hq. by apply elem_of_nil in Hq.
  - rewrite by_priority_step. destruct (mem p date_names) eqn:Hdate.
    + left. apply mem_true_iff in Hdate.
      assert (Hmem : mem p (col_names upper cols) = true).
      { apply list_elem_of_fmap in Hdate as (n & -> & Hn).
        apply date_type_cols_elem in Hn as (c & Hc & <- & _).
        apply mem_true_iff. unfold col_names. apply list_elem_of_fmap. by exists c. }
      destruct (next_named_found p Hmem) as (c & Hhead & -> & _ & _).
      exists O, p, c. split; [done|]. split; [intros j q Hj; lia|]. done.
    + assert (Hnot : p ∉ date_names).
      { intros Hin. apply mem_true_iff in Hin. congruence. }
      destruct IH as [(i & q & c & Hi & Hbefore & Hq & Hhead & Hres)|[Hnone Hres]].
      * left. exists (S i), q, c. split; [done|]. split; [|done].
        intros [|j] q' Hj Hq'; simpl in Hq'; [by injection Hq' as <-|].
        apply (Hbefore j); [lia | done].
      * right. split; [|done]. intros q Hq.
        apply elem_of_cons in Hq as [->|Hq]; [done | by apply Hnone].
Qed.

End DateColumnFacts.

Section GetDateColumn.
Variable upper : string → string.
Variable describe_table : string → option (list Column).

Abbreviation get_date_column := (get_date_column upper describe_table).

(** X1. [get_date_column] never raises: the [next(...)] of the loop always
    finds a column.  It returns [None] exactly when the table cannot be
    described or none of its columns has a type that contains DATE or
    TIMESTAMP. *)
Theorem date_column_none_iff db schema table :
  ∃ found,
    get_date_column db schema table = DateColumn found
    ∧ (found = None
       ↔ match describe_table (describe_statement db schema table) with
         | None => True
         | Some cols => Forall (fun c => is_date_type upper (type c) = false) cols
         end).
Proof.
  unfold Discovery.get_date_column.
  destruct (describe_table (describe_statement db schema table)) as [cols|];
    [|by exists None].
  assert (Hnone : head (date_type_cols upper cols) = None
                  ↔ Forall (fun c => is_date_type upper (type c) = false) cols).
  { rewrite head_None, Forall_forall. split.
    - intros Hnil c Hc. destruct (is_date_type upper (type c)) eqn:Hty; [|done].
      assert (Hin : name c ∈ date_type_cols upper cols)
        by (apply date_type_cols_elem; by exists c).
      rewrite Hnil in Hin. by apply elem_of_nil in Hin.
    - intros Hall. destruct (date_type_cols upper cols) as [|n rest] eqn:Hd; [done|].
      assert (Hin : n ∈ date_type_cols upper cols) by (rewrite Hd; apply list_elem_of_here).
      apply date_type_cols_elem in Hin as (c & Hc & _ & Hty).
      rewrite (Hall c Hc) in Hty. discriminate. }
  destruct (by_priority_cases upper cols priority_order)
    as [(i & p & c & _ & _ & Hp & _ & ->)|[_ ->]].
  - exists (Some (name c)). split; [done|]. split; [done|].
    intros Hall. exfalso. rewrite Forall_forall in Hall.
    apply list_elem_of_fmap in Hp as (n & _ & Hn).
    apply date_type_cols_elem in Hn as (c' & Hc' & _ & Hty).
    rewrite (Hall c' Hc') in Hty. discriminate.
  - by eexists.
Qed.

(** X2. The name [get_date_column] returns is the name of a column of the
    table, and some column of a date type has the same uppercased name.  When
    no two columns of the table share an uppercased name, the returned column
    itself has a date type. *)
Theorem date_column_is_a_date_column db schema table n :
  get_date_column db schema table = DateColumn (Some n) →
  ∃ cols,
    describe_table (describe_statement db schema table) = Some cols
    ∧ n ∈ name <$> cols
    ∧ (∃ c, c ∈ cols ∧ upper (name c) = upper n ∧ is_date_type upper (type c) = true)
    ∧ (NoDup (col_names upper cols) →
       ∃ c, c ∈ cols ∧ name c = n ∧ is_date_type upper (type c) = true).
Proof.
  unfold Discovery.get_date_column.
  destruct (describe_table (describe_statement db schema table)) as [cols|];
    [|discriminate].
  intros Hres. exists cols. split; [done|].
  destruct (by_priority_cases upper cols priority_order)
    as [(i & p & c & _ & _ & Hp & Hhead & Hby)|[_ Hby]];
    rewrite Hby in Hres; injection Hres as Hres.
  - subst n.
    assert (Hc : c ∈ filter (fun c => upper (name c) = p) cols).
    { destruct (filter (fun c => upper (name c) = p) cols) as [|c0 rest]; [done|].
      injection Hhead as ->. apply list_elem_of_here. }
    apply list_elem_of_filter in Hc as [Hup Hc].
    apply list_elem_of_fmap in Hp as (n' & Hn' & Hd).
    apply date_type_cols_elem in Hd as (c' & Hc' & <- & Hty).
    split; [by apply list_elem_of_fmap_2|]. split.
    + exists c'. split; [done|]. split; [congruence | done].
    + intros Hnodup. exists c. split; [done|]. split; [done|].
      assert (c = c') as ->; [|done].
      unfold col_names in Hnodup.
      apply list_elem_of_lookup in Hc as [k Hk]. apply list_elem_of_lookup in Hc' as [k' Hk'].
      assert (k = k') as ->; [|congruence].
      eapply (NoDup_lookup _ _ _ (upper (name c)) Hnodup).
      * by rewrite list_lookup_fmap, Hk.
      * rewrite list_lookup_fmap, Hk'. simpl. congruence.
  - assert (Hin : n ∈ date_type_cols upper cols).
    { destruct (date_type_cols upper cols) as [|n0 rest]; [done|].
      injection Hres as ->. apply list_elem_of_here. }
    apply date_type_cols_elem in Hin as (c & Hc & <- & Hty).
    split; [by apply list_elem_of_fmap_2|]. split; by exists c.
Qed.

(** X3. The choice follows the priority list: the returned name, uppercased,
    is the first name of the list that some column of a date type carries;
    when no name of the list is carried by such a column, the first column of
    a date type is returned. *)
Theorem date_column_follows_priority db schema table cols n :
  describe_table (describe_statement db schema table) = Some cols →
  get_date_column db schema table = DateColumn (Some n) →
  (∃ i, priority_order !! i = Some (upper n)
        ∧ upper n ∈ upper <$> date_type_cols upper cols
        ∧ ∀ j q, (j < i)%nat → priority_order !! j = Some q →
                 q ∉ upper <$> date_type_cols upper cols)
  ∨ ((∀ q, q ∈ priority_order → q ∉ upper <$> date_type_cols upper cols)
     ∧ head (date_type_cols upper cols) = Some n).
Proof.
  unfold Discovery.get_date_column. intros -> Hres.
  destruct (by_priority_cases upper cols priority_order)
    as [(i & p & c & Hi & Hbefore & Hp & Hhead & Hby)|[Hnone Hby]];
    rewrite Hby in Hres; injection Hres as Hres.
  - left. subst n.
    assert (Hc : c ∈ filter (fun c => upper (name c) = p) cols).
    { destruct (filter (fun c => upper (name c) = p) cols) as [|c0 rest]; [done|].
      injection Hhead as ->. apply list_elem_of_here. }
    apply list_elem_of_filter in Hc as [-> _]. by exists i.
  - right. by split.
Qed.

End GetDateColumn.

(** ** Discovery: qualified names *)

Lemma count_char_app c (a b : string) :
  count_char c (a +:+ b) = (count_char c a + count_char c b)%nat.
Proof.
  induction a as [|x a IH]; simpl; [done|]. rewrite IH. lia.
Qed.

Lemma split_dot_free sep (s : string) : dot_free sep s → split sep s = [s].
Proof.
  unfold dot_free. induction s as [|x s IH]; simpl; [done|].
  destruct (Ascii.eqb x sep); [discriminate|]. intros Hs. by rewrite IH.
Qed.

Lemma split_app_sep sep (a b : string) :
  dot_free sep a → split sep (a +:+ String sep b) = a :: split sep b.
Proof.
  unfold dot_free. induction a as [|x a IH]; simpl.
  - intros _. by rewrite Ascii.eqb_refl.
  - destruct (Ascii.eqb x sep); [discriminate|]. intros Ha. by rewrite IH.
Qed.

(** The name that discovery builds splits back into its three parts exactly
    when none of them contains a dot. *)
Lemma qualified_three_part db schema table :
  three_part (qualified db schema table)
  ↔ dot_free "." db ∧ dot_free "." schema ∧ dot_free "." table.
Proof.
  unfold three_part, qualified, dot_free. rewrite !count_char_app. simpl. lia.
Qed.

Lemma qualified_split db schema table :
  three_part (qualified db schema table) →
  split "." (qualified db schema table) = [db; schema; table].
Proof.
  intros (Hdb & Hschema & Htable)%qualified_three_part. unfold qualified. simpl.
  by rewrite (split_app_sep "." db _ Hdb), (split_app_sep "." schema _ Hschema),
    (split_dot_free "." table Htable).
Qed.

(** ** Discovery: active tables *)

Section DiscoveryFacts.
Variable upper : string → string.
Variable describe_table : string → option (list Column).
Variable show_tables : string → option (list string).
Variable V : Type.
Variable select_max : string → Z → max_outcome V.
Variable within_thirty_days : string → V → option bool.
Variable TARGET_SCHEMAS : list (string * string).

Abbreviation is_table_active := (is_table_active V select_max within_thirty_days).
Abbreviation scan_tables :=
  (scan_tables upper describe_table V select_max within_thirty_days).
Abbreviation discover_active_tables :=
  (discover_active_tables upper describe_table show_tables V select_max
     within_thirty_days TARGET_SCHEMAS).

Lemma is_table_active_parts fqn date_col db schema table :
  split "." fqn = [db; schema; table] →
  is_table_active fqn date_col
  = Returned
      match select_max (max_statement db schema table date_col) 15 with
      | MaxRaises => false
      | MaxNull => false
      | MaxValue max_date =>
          default false
            (within_thirty_days (max_statement db schema table date_col) max_date)
      end.
Proof.
  intros Hsplit. unfold Discovery.is_table_active. by rewrite Hsplit.
Qed.

Lemma is_table_active_malformed fqn date_col :
  ¬ three_part fqn → is_table_active fqn date_col = Raised ValueError.
Proof.
  intros Hparts. unfold Discovery.is_table_active. by rewrite (unpack3_other _ Hparts).
Qed.

(** X4. [is_table_active] raises [ValueError] exactly on a name that does not
    have three parts, whatever the warehouse answers.  It returns [True]
    exactly when the name has three parts, the MAX statement on them (the
    date column and each part between double quotes, timeout 15) gives a
    value, not NULL and no exception, and the comparison of that value with
    thirty days ago succeeds and holds. *)
Theorem table_is_active_iff fqn date_col :
  (is_table_active fqn date_col = Raised ValueError ↔ ¬ three_part fqn)
  ∧ (is_table_active fqn date_col = Returned true
     ↔ ∃ db schema table max_date,
         split "." fqn = [db; schema; table]
         ∧ select_max ("SELECT MAX(" +:+ quoted date_col +:+ ") FROM " +:+ quoted db
                         +:+ "." +:+ quoted schema +:+ "." +:+ quoted table) 15
           = MaxValue max_date
         ∧ within_thirty_days ("SELECT MAX(" +:+ quoted date_col +:+ ") FROM "
                                 +:+ quoted db +:+ "." +:+ quoted schema +:+ "."
                                 +:+ quoted table) max_date
           = Some true).
Proof.
  destruct (decide (three_part fqn)) as [Hparts|Hparts].
  - destruct (split_three_part _ Hparts) as (db & schema & table & Hsplit).
    rewrite (is_table_active_parts _ _ _ _ _ Hsplit).
    split; [split; [discriminate | done]|].
    unfold max_statement, quoted_model_name. split.
    + intros [= Hactive]. exists db, schema, table.
      destruct (select_max _ 15) as [max_date| |] eqn:Hmax; try discriminate.
      exists max_date. split; [done|]. split; [done|].
      by destruct (within_thirty_days _ max_date) as [[|]|].
    + intros (db' & schema' & table' & max_date & Hsplit' & Hmax & Hrecent).
      rewrite Hsplit in Hsplit'. injection Hsplit' as <- <- <-.
      by rewrite Hmax, Hrecent.
  - unfold Discovery.is_table_active.
    rewrite (unpack3_other _ Hparts). simpl. split; [done|]. split; [discriminate|].
    intros (db & schema & table & _ & Hsplit & _). exfalso. apply Hparts.
    unfold three_part. pose proof (split_length "." fqn) as Hlen.
    rewrite Hsplit in Hlen. simpl in Hlen. lia.
Qed.

(** What one schema contributes. *)
Lemma scan_tables_elem db schema table_names info :
  info ∈ scan_tables db schema table_names →
  ∃ table,
    table ∈ table_names
    ∧ fqn info = qualified db schema table
    ∧ date_col info ≠ EmptyString
    ∧ get_date_column upper describe_table db schema table
      = DateColumn (Some (date_col info))
    ∧ is_table_active (fqn info) (date_col info) = Returned true.
Proof.
  induction table_names as [|table rest IH]; cbn [Discovery.scan_tables].
  { intros Hin. by apply elem_of_nil in Hin. }
  intros Hin.
  assert (Hrest : info ∈ scan_tables db schema rest →
                  ∃ table0, table0 ∈ table :: rest
                    ∧ fqn info = qualified db schema table0
                    ∧ date_col info ≠ EmptyString
                    ∧ get_date_column upper describe_table db schema table0
                      = DateColumn (Some (date_col info))
                    ∧ is_table_active (fqn info) (date_col info) = Returned true).
  { intros H. destruct (IH H) as (t & Ht & Hrest). exists t.
    split; [by apply list_elem_of_further | done]. }
  destruct (get_date_column upper describe_table db schema table) as [[d|]|] eqn:Hdate;
    simpl in Hin; try (by apply elem_of_nil in Hin); try (by apply Hrest).
  destruct (negb (String.eqb d EmptyString)) eqn:Hd; [|by apply Hrest].
  destruct (is_table_active (qualified db schema table) d) as [[|]|e] eqn:Hactive;
    try (by apply elem_of_nil in Hin); try (by apply Hrest).
  apply elem_of_cons in Hin as [->|Hin]; [|by apply Hrest].
  exists table. simpl. split; [apply list_elem_of_here|]. split; [done|].
  split; [|done]. intros ->. discriminate Hd.
Qed.

(** X5. Every entry that [discover_active_tables] returns comes from a table
    listed in one of the target schemas: its name is the three names joined
    by dots and has three parts (none of the three names contains a dot), so
    that splitting it gives back the schema and the table that discovery saw;
    its date column is not empty and is the one [get_date_column] chose; and
    [is_table_active] returned [True] for it. *)
Theorem discovered_tables_are_well_formed info :
  info ∈ discover_active_tables →
  ∃ db schema table table_names,
    (db, schema) ∈ TARGET_SCHEMAS
    ∧ show_tables (show_tables_statement db schema) = Some table_names
    ∧ table ∈ table_names
    ∧ fqn info = db +:+ "." +:+ schema +:+ "." +:+ table
    ∧ three_part (fqn info)
    ∧ split "." (fqn info) = [db; schema; table]
    ∧ date_col info ≠ EmptyString
    ∧ get_date_column upper describe_table db schema table
      = DateColumn (Some (date_col info))
    ∧ is_table_active (fqn info) (date_col info) = Returned true.
Proof.
  unfold Discovery.discover_active_tables. intros Hin.
  apply list_elem_of_bind in Hin as ([db schema] & Hin & Htarget).
  unfold discover_schema in Hin.
  destruct (show_tables (show_tables_statement db schema)) as [table_names|] eqn:Hshow;
    [|by apply elem_of_nil in Hin].
  apply scan_tables_elem in Hin as (table & Htable & Hfqn & Hdate & Hcol & Hactive).
  exists db, schema, table, table_names.
  assert (Hparts : three_part (fqn info)).
  { destruct (decide (three_part (fqn info))) as [|Hno]; [done|].
    apply (is_table_active_malformed _ (date_col info)) in Hno. congruence. }
  repeat (split; [done|]). split; [|done].
  rewrite Hfqn in *. by apply qualified_split.
Qed.

(** X6. A listed table that has a date column and whose name does not give a
    three-part qualified name (a dot in one of the names) ends the scan of its
    schema: no table listed after it is examined, and the entries are those
    of the tables listed before it. *)
Theorem dotted_name_ends_the_schema db schema before table date_col after :
  get_date_column upper describe_table db schema table = DateColumn (Some date_col) →
  date_col ≠ EmptyString →
  ¬ three_part (qualified db schema table) →
  scan_tables db schema (before ++ table :: after) = scan_tables db schema before.
Proof.
  intros Hdate Hne Hparts.
  assert (Hhere : scan_tables db schema (table :: after) = []).
  { cbn [Discovery.scan_tables]. rewrite Hdate. simpl.
    rewrite (eqb_neq_false _ _ Hne). simpl.
    by rewrite (is_table_active_malformed _ date_col Hparts). }
  induction before as [|t before IH]; [exact Hhere|].
  rewrite <- app_comm_cons. cbn [Discovery.scan_tables]. rewrite IH. reflexivity.
Qed.

End DiscoveryFacts.

(** ** The executor: what a record can hold *)

Section RecordFacts.
Variable lower : string → string.
Variable execute : nat → string → Z → exec_outcome.
Variable utcnow : nat → string.

Lemma run_test_consistent model n test r :
  Runner.run_test lower execute utcnow model n test = Returned r → consistent r.
Proof.
  unfold Runner.run_test, consistent.
  destruct (generate_test_sql _ _ _ _) as [sql|e]; simpl; [|discriminate].
  destruct (no_sql sql).
  - intros [= <-]. simpl. right; right. by split; [left|].
  - destruct (execute n (fmt_opt sql) QUERY_TIMEOUT_SECONDS) as [count|text errno|];
      simpl.
    + destruct (0 <? count) eqn:Hpos; intros [= <-]; simpl.
      * right; left. split; [done|]. by apply Z.ltb_lt.
      * left. split; [done|]. apply Z.ltb_ge in Hpos. lia.
    + destruct (signals_timeout lower text errno); intros [= <-]; simpl;
        right; right; (split; [|done]); [by right | by left].
    + intros [= <-]. simpl. right; right. by split; [left|].
Qed.

Lemma run_tests_consistent model n ts m rs :
  Runner.run_tests lower execute utcnow model n ts = Returned (m, rs) →
  Forall consistent rs.
Proof.
  revert n m rs. induction ts as [|test ts IH]; intros n m rs; cbn [Runner.run_tests].
  - intros [= _ <-]. constructor.
  - destruct (Runner.run_test lower execute utcnow model (S n) test) as [r|e] eqn:Hr;
      simpl; [|discriminate].
    destruct (Runner.run_tests lower execute utcnow model (S n) ts) as [[m' rs']|e] eqn:Hrs;
      simpl; [|discriminate].
    intros [= _ <-]. constructor; [by eapply run_test_consistent | by eapply IH].
Qed.

Lemma run_models_consistent n rules results :
  Runner.run_models lower execute utcnow n rules = Returned results →
  Forall consistent results.
Proof.
  revert n results. induction rules as [|model rules IH]; intros n results;
    cbn [Runner.run_models].
  - intros [= <-]. constructor.
  - destruct (Runner.run_tests lower execute utcnow (model_name model) n (tests model))
      as [[m rs]|e] eqn:Hrs; simpl; [|discriminate].
    destruct (Runner.run_models lower execute utcnow m rules) as [rs'|e] eqn:Hrs';
      simpl; [|discriminate].
    intros [= <-]. apply Forall_app. split; [by eapply run_tests_consistent | by eapply IH].
Qed.

(** X7. Whatever the warehouse does, every record that [run_all_checks]
    returns is consistent: its status is pass, fail, error or timeout; the
    status is fail exactly when failing_rows is positive; and error and
    timeout always come with failing_rows -1. *)
Theorem records_are_consistent rules results :
  run_all_checks lower execute utcnow rules = Returned results →
  Forall (fun r =>
            (status r = "pass" ∨ status r = "fail" ∨ status r = "error"
             ∨ status r = "timeout")
            ∧ (status r = "fail" ↔ 0 < failing_rows r)
            ∧ (status r = "error" ∨ status r = "timeout" → failing_rows r = -1))
    results.
Proof.
  unfold Runner.run_all_checks. intros Hrun.
  assert (Hall : Forall consistent results).
  { destruct (total_tests rules =? 0)%nat.
    - injection Hrun as <-. constructor.
    - by eapply run_models_consistent. }
  eapply Forall_impl; [exact Hall|]. intros r. unfold consistent.
  intros [[Hs Hrows]|[[Hs Hrows]|[Hs Hrows]]].
  - rewrite Hs. split; [by left|]. split; [split; [done | lia]|].
    intros [?|?]; done.
  - rewrite Hs. split; [by right; left|]. split; [done|]. intros [?|?]; done.
  - split; [destruct Hs as [->| ->]; tauto|]. split; [|done].
    split; [destruct Hs as [Hs|Hs]; rewrite Hs; done | lia].
Qed.

End RecordFacts.

(** ** The generator: what every specification looks like *)

Lemma custom_sql_test_compiles (cfg : gmap string pyval) col sql d :
  sql ≠ EmptyString →
  compiles (test_type (custom_sql_test cfg col sql d))
    (config (custom_sql_test cfg col sql d)).
Proof.
  intros Hsql. right; right. split; [done|].
  unfold sql_missing, dict_get, custom_sql_test, with_sql. simpl.
  rewrite lookup_insert_eq. simpl. by rewrite (eqb_neq_false _ _ Hsql).
Qed.

(** The index of the cross-column rules after one more column. *)
Lemma col_index_snoc upper cols c :
  col_index upper (cols ++ [c]) = <[upper (name c) := name c]> (col_index upper cols).
Proof.
  unfold col_index. by rewrite foldl_app.
Qed.

Lemma col_index_lookup upper cols key :
  col_index upper cols !! key
  = name <$> last (filter (fun c => upper (name c) = key) cols).
Proof.
  induction cols as [|c cols IH] using rev_ind; [done|].
  rewrite col_index_snoc, filter_app.
  destruct (decide (upper (name c) = key)) as [<-|Hne].
  - rewrite lookup_insert_eq.
    rewrite filter_cons_True, filter_nil by done. by rewrite last_snoc.
  - rewrite lookup_insert_ne by done.
    rewrite filter_cons_False, filter_nil by done.
    by rewrite app_nil_r.
Qed.

Lemma has_column_iff upper cols key :
  has_column upper cols key = true ↔ ∃ c, c ∈ cols ∧ upper (name c) = key.
Proof.
  unfold has_column. rewrite existsb_exists. split; intros (c & Hin & Hc); exists c.
  - split; [by apply list_elem_of_In | by apply String.eqb_eq].
  - split; [by apply list_elem_of_In | by apply String.eqb_eq].
Qed.

Lemma col_index_is_Some upper cols key :
  is_Some (col_index upper cols !! key) ↔ has_column upper cols key = true.
Proof.
  rewrite col_index_lookup, has_column_iff, fmap_is_Some.
  split.
  - intros [c Hc]. exists c. apply last_Some_elem_of in Hc.
    by apply list_elem_of_filter in Hc as [? ?].
  - intros (c & Hin & Hc).
    destruct (last (filter (λ c0, upper (name c0) = key) cols)) as [c'|] eqn:Hlast;
      [by eexists|].
    apply last_None in Hlast.
    assert (Hin' : c ∈ filter (λ c0, upper (name c0) = key) cols)
      by (by apply list_elem_of_filter).
    rewrite Hlast in Hin'. by apply elem_of_nil in Hin'.
Qed.

Lemma col_index_value upper cols key n :
  col_index upper cols !! key = Some n → n ∈ name <$> cols.
Proof.
  rewrite col_index_lookup. intros Hn. apply fmap_Some in Hn as (c & Hc & ->).
  apply last_Some_elem_of, list_elem_of_filter in Hc as [_ Hc].
  by apply list_elem_of_fmap_2.
Qed.

(** X8. The index that the cross-column rules look names up in keeps, for an
    uppercased name, the spelling of the last column with that uppercased
    name: a lookup succeeds exactly when the table splits around such a
    column with no column of the same uppercased name after it. *)
Theorem col_index_keeps_the_last_spelling upper cols key n :
  col_index upper cols !! key = Some n
  ↔ ∃ before c after,
      cols = before ++ c :: after ∧ upper (name c) = key ∧ name c = n
      ∧ Forall (fun c' => upper (name c') ≠ key) after.
Proof.
  split.
  - revert n. induction cols as [|c cols IH] using rev_ind; intros n.
    + unfold col_index. simpl. by rewrite lookup_empty.
    + rewrite col_index_snoc.
      destruct (decide (upper (name c) = key)) as [Hc|Hne].
      * rewrite <- Hc, lookup_insert_eq. intros [= <-].
        exists cols, c, []. by repeat split.
      * rewrite lookup_insert_ne by done. intros Hn.
        destruct (IH n Hn) as (before & c' & after & -> & Hc' & Hn' & Hafter).
        exists before, c', (after ++ [c]). split; [by rewrite <- app_assoc|].
        split; [done|]. split; [done|].
        apply Forall_app. split; [done|]. by constructor.
  - intros (before & c & after & -> & Hc & Hn & Hafter).
    rewrite col_index_lookup, filter_app, filter_cons_True by done.
    rewrite (filter_none _ after) by done.
    by rewrite last_snoc, <- Hn.
Qed.

Section GeneratedSpecifications.
Variable upper : string → string.
Variable now : datetime.
Variable table_name : string.
Variable prefix : string.
Variable cfg : gmap string pyval.

Ltac split_rules :=
  unfold rule_1, rule_2, rule_3, rule_4, rule_5, rule_6, rule_7, rule_8, rule_9,
    rule_10, rule_11, rule_12, rule_13, rule_14, rule_15;
  cbv zeta; repeat case_match.

Ltac per_rule tac :=
  repeat (apply Forall_app; split); tac.

Ltac per_test :=
  repeat first [ apply Forall_nil_2 | apply Forall_cons_2 ].

Ltac compile_cases :=
  cbv beta; unfold future_date_test;
  lazymatch goal with
  | |- compiles (test_type (custom_sql_test _ _ _ _)) _ =>
      apply custom_sql_test_compiles;
      unfold future_date_condition, blank_condition, range_condition, email_regex;
      str_norm; discriminate
  | |- _ => first [ left; reflexivity | right; left; reflexivity ]
  end.

Lemma column_tests_compile c :
  Forall (fun t => compiles (test_type t) (config t))
    (column_tests upper now table_name prefix cfg c).
Proof.
  unfold column_tests.
  per_rule ltac:(split_rules; per_test; compile_cases).
Qed.

Lemma after_loop_compile cols :
  Forall (fun t => compiles (test_type t) (config t))
    (cross_column_tests upper prefix cfg cols ++ rule_16 upper table_name prefix cfg cols).
Proof.
  unfold cross_column_tests, cross_date_id, cross_created_updated, cross_impression_order,
    cross_date_in_range, cross_clicks, rule_16.
  cbv zeta.
  per_rule ltac:(repeat case_match; per_test; compile_cases).
Qed.

Lemma column_tests_recognized c :
  Forall (fun t => recognized (test_type t)) (column_tests upper now table_name prefix cfg c).
Proof.
  eapply Forall_impl; [apply column_tests_compile|].
  intros t [?|[?|[? _]]]; unfold recognized; tauto.
Qed.

(** The tests of the cross-column rules name a column of the table. *)
Lemma cross_column_tests_column_name cols :
  Forall (fun t => column_name t ∈ name <$> cols) (cross_column_tests upper prefix cfg cols).
Proof.
  unfold cross_column_tests, cross_date_id, cross_created_updated, cross_impression_order,
    cross_date_in_range, cross_clicks.
  cbv zeta.
  per_rule ltac:(repeat case_match; per_test; cbv beta; cbn [column_name custom_sql_test];
                 eapply col_index_value; eassumption).
Qed.

Lemma rule_16_column_name cols :
  Forall (fun t => column_name t = "isConfirmedEmail,email"
                   ∨ column_name t = "IS_ACTIVE_SUB_IND,NUMBER_OF_ACTIVE_SUBSCRIPTIONS")
    (rule_16 upper table_name prefix cfg cols).
Proof.
  unfold rule_16. repeat case_match; per_test; cbv beta; simpl; tauto.
Qed.

(** X11. The cross-column rules emit one test for each of their five
    conditions that the table meets, each condition being the presence of
    all its columns by uppercased name: DATE_ID and DATE; CREATEDAT and
    UPDATEDAT; the two impression dates; DATE and the two impression dates;
    CLICKS and IMPRESSIONS. *)
Theorem cross_column_tests_count cols :
  let has := has_column upper cols in
  length (cross_column_tests upper prefix cfg cols)
  = (Nat.b2n (has "DATE_ID" && has "DATE")
     + Nat.b2n (has "CREATEDAT" && has "UPDATEDAT")
     + Nat.b2n (has "FIRST_IMPRESSION_DATE" && has "LAST_IMPRESSION_DATE")
     + Nat.b2n (has "DATE" && has "FIRST_IMPRESSION_DATE" && has "LAST_IMPRESSION_DATE")
     + Nat.b2n (has "CLICKS" && has "IMPRESSIONS"))%nat.
Proof.
  cbv zeta.
  assert (Hhas : ∀ key, has_column upper cols key
                        = bool_decide (is_Some (col_index upper cols !! key))).
  { intros key. apply eq_true_iff_eq. rewrite bool_decide_eq_true.
    symmetry. apply col_index_is_Some. }
  rewrite !Hhas.
  unfold cross_column_tests, cross_date_id, cross_created_updated, cross_impression_order,
    cross_date_in_range, cross_clicks.
  cbv zeta. rewrite !length_app.
  destruct (col_index upper cols !! "DATE_ID"), (col_index upper cols !! "DATE"),
    (col_index upper cols !! "CREATEDAT"), (col_index upper cols !! "UPDATEDAT"),
    (col_index upper cols !! "FIRST_IMPRESSION_DATE"),
    (col_index upper cols !! "LAST_IMPRESSION_DATE"),
    (col_index upper cols !! "CLICKS"), (col_index upper cols !! "IMPRESSIONS");
    reflexivity.
Qed.

End GeneratedSpecifications.

Section GeneratedRun.
Variable upper : string → string.
Variable now : datetime.
Variable table_name : string.
Variable columns : list Column.
Variable primary_date_column : option string.
Variable check_yesterday_only : bool.

Let out := generated_tests upper now table_name columns primary_date_column check_yesterday_only.

Lemma generated_tests_all_compile :
  Forall (fun t => compiles (test_type t) (config t)) out.
Proof.
  unfold out, generated_tests. cbv zeta. apply Forall_app. split.
  - apply Forall_forall. intros t Hin.
    apply list_elem_of_bind in Hin as (c & Hin & _).
    pose proof (column_tests_compile upper now table_name
                  (description_prefix_base primary_date_column check_yesterday_only)
                  (base_test_config primary_date_column check_yesterday_only) c) as Hall.
    rewrite Forall_forall in Hall. by apply Hall.
  - apply after_loop_compile.
Qed.

(** X9. From the generator through the compiler to the executor: for a
    three-part table name, every test that [generate_rules_for_table] emits
    compiles to a statement, and its record is the classification of what the
    execution of that statement gives; no generated test is recorded as an
    error for want of a statement. *)
Theorem generated_tests_reach_the_warehouse t :
  three_part table_name → t ∈ out →
  ∃ sql,
    generate_test_sql (test_type t) table_name (column_name t) (Some (config t))
      = Returned (Some sql)
    ∧ sql ≠ EmptyString
    ∧ ∀ lower execute utcnow n,
        ∃ r, Runner.run_test lower execute utcnow table_name n t = Returned r
             ∧ (status r, failing_rows r)
               = classify lower (execute n sql QUERY_TIMEOUT_SECONDS).
Proof.
  intros Hparts Hin.
  pose proof generated_tests_all_compile as Hall. rewrite Forall_forall in Hall.
  pose proof (Hall t Hin) as Hcompiles.
  apply (base_condition_some_iff _ (column_name t)) in Hcompiles as [base Hbase].
  destruct (split_three_part _ Hparts) as (db & schema & table & Hsplit).
  pose proof (generate_test_sql_parts (test_type t) table_name (column_name t)
                (Some (config t)) db schema table Hsplit) as Hsql.
  simpl in Hsql. rewrite Hbase in Hsql. cbv zeta in Hsql.
  eexists. split; [exact Hsql|].
  pose proof (compiled_statement_not_empty _ _ _ _ _ Hsql) as Hnot.
  split.
  - intros Hempty. rewrite Hempty in Hnot. discriminate Hnot.
  - intros lower execute utcnow n. eexists. split.
    + by apply run_test_returned.
    + rewrite Hnot. simpl. by destruct (classify _ _).
Qed.

(** X10. Every test of [generate_rules_for_table] has one of the three kinds
    that the compiler knows, and names a column of the table, except the two
    tests of the table-name rule, which name a pair of columns; a table
    without columns gets no test. *)
Theorem generated_tests_kinds_and_columns :
  Forall (fun t =>
            recognized (test_type t)
            ∧ (column_name t ∈ name <$> columns
               ∨ column_name t = "isConfirmedEmail,email"
               ∨ column_name t = "IS_ACTIVE_SUB_IND,NUMBER_OF_ACTIVE_SUBSCRIPTIONS"))
    out
  ∧ generated_tests upper now table_name [] primary_date_column check_yesterday_only = [].
Proof.
  split.
  - apply Forall_forall. intros t Hin. split.
    + pose proof generated_tests_all_compile as Hall. rewrite Forall_forall in Hall.
      destruct (Hall t Hin) as [?|[?|[? _]]]; unfold recognized; tauto.
    + unfold out, generated_tests in Hin. cbv zeta in Hin.
      rewrite !elem_of_app in Hin. destruct Hin as [Hin|[Hin|Hin]].
      * apply list_elem_of_bind in Hin as (c & Hin & Hc). left.
        pose proof (column_tests_column_name upper now table_name
                      (description_prefix_base primary_date_column check_yesterday_only)
                      (base_test_config primary_date_column check_yesterday_only) c)
          as Hall.
        rewrite Forall_forall in Hall. rewrite (Hall t Hin).
        by apply list_elem_of_fmap_2.
      * left.
        pose proof (cross_column_tests_column_name upper
                      (description_prefix_base primary_date_column check_yesterday_only)
                      (base_test_config primary_date_column check_yesterday_only) columns)
          as Hall.
        rewrite Forall_forall in Hall. by apply Hall.
      * right.
        pose proof (rule_16_column_name upper table_name
                      (description_prefix_base primary_date_column check_yesterday_only)
                      (base_test_config primary_date_column check_yesterday_only) columns)
          as Hall.
        rewrite Forall_forall in Hall. by apply Hall.
  - unfold generated_tests, rule_16. cbv zeta. simpl. by repeat case_match.
Qed.

End GeneratedRun.

(** ** The pipeline *)

Lemma count_status_cons s r results :
  Pipeline.count_status s (r :: results)
  = ((if decide (status r = s) then 1 else 0) + Pipeline.count_status s results)%nat.
Proof.
  unfold Pipeline.count_status. rewrite filter_cons. by destruct (decide (status r = s)).
Qed.

Lemma count_status_zero s results :
  Pipeline.count_status s results = O ↔ Forall (fun r => status r ≠ s) results.
Proof.
  induction results as [|r results IH].
  - split; [constructor | done].
  - rewrite count_status_cons, Forall_cons, <- IH.
    destruct (decide (status r = s)); split; try lia; tauto.
Qed.

Lemma count_status_total results :
  Forall consistent results →
  (Pipeline.count_status "pass" results + Pipeline.count_status "fail" results
   + Pipeline.count_status "error" results + Pipeline.count_status "timeout" results
   = length results)%nat.
Proof.
  induction 1 as [|r results Hr _ IH]; [done|].
  rewrite !count_status_cons. simpl length.
  destruct Hr as [[Hs _]|[[Hs _]|[[Hs|Hs] _]]]; rewrite Hs; simpl; lia.
Qed.

Lemma exit_code_zero_iff results :
  Forall consistent results →
  Pipeline.exit_code results = 0 ↔ Forall (fun r => status r = "pass") results.
Proof.
  intros Hall. unfold Pipeline.exit_code.
  destruct (_ || _) eqn:Hany.
  - split; [done|]. intros Hpass. exfalso.
    assert (Hzero : ∀ s, s ≠ "pass" → Pipeline.count_status s results = O).
    { intros s Hs. apply count_status_zero. eapply Forall_impl; [exact Hpass|].
      intros r Hr. simpl in Hr. rewrite Hr. congruence. }
    rewrite !Hzero in Hany by done. discriminate Hany.
  - split; [|done]. intros _.
    apply orb_false_iff in Hany as [Hany Htimeout].
    apply orb_false_iff in Hany as [Hfail Herror].
    apply Nat.ltb_ge in Hfail, Herror, Htimeout.
    assert (Hf : Forall (fun r => status r ≠ "fail") results)
      by (apply count_status_zero; lia).
    assert (He : Forall (fun r => status r ≠ "error") results)
      by (apply count_status_zero; lia).
    assert (Ht : Forall (fun r => status r ≠ "timeout") results)
      by (apply count_status_zero; lia).
    rewrite Forall_forall in Hall, Hf, He, Ht. apply Forall_forall. intros r Hin.
    destruct (Hall r Hin) as [[Hs _]|[[Hs _]|[[Hs|Hs] _]]]; [done| | |].
    + by destruct (Hf r Hin).
    + by destruct (He r Hin).
    + by destruct (Ht r Hin).
Qed.

Section PipelineFacts.
Variable upper lower : string → string.
Variable describe_table : string → option (list Column).
Variable show_tables : string → option (list string).
Variable V : Type.
Variable select_max : string → Z → max_outcome V.
Variable within_thirty_days : string → V → option bool.
Variable TARGET_SCHEMAS : list (string * string).
Variable now_at : nat → datetime.
Variable execute : nat → string → Z → exec_outcome.
Variable utcnow : nat → string.

Abbreviation rules_for := (Pipeline.rules_for upper describe_table now_at).
Abbreviation generate_all_rules_from :=
  (Pipeline.generate_all_rules_from upper describe_table now_at).
Abbreviation generate_all_rules := (Pipeline.generate_all_rules upper describe_table now_at).
Abbreviation discovered :=
  (discover_active_tables upper describe_table show_tables V select_max within_thirty_days
     TARGET_SCHEMAS).
Abbreviation main :=
  (Pipeline.main upper lower describe_table show_tables V select_max within_thirty_days
     TARGET_SCHEMAS now_at execute utcnow).

(** The model that [generate_all_rules] builds for the [n]-th table. *)
Abbreviation table_model n info flag db schema table :=
  (generate_rules_for_table upper (now_at n) (fqn info)
     (default [] (describe_table (describe_statement db schema table)))
     (Some (date_col info)) flag).

Lemma rules_for_three_part n info flag :
  three_part (fqn info) →
  ∃ db schema table,
    split "." (fqn info) = [db; schema; table]
    ∧ rules_for n info flag
      = Returned (if decide (tests (table_model n info flag db schema table) = [])
                  then [] else [table_model n info flag db schema table]).
Proof.
  intros Hparts. destruct (split_three_part _ Hparts) as (db & schema & table & Hsplit).
  exists db, schema, table. split; [done|].
  unfold Pipeline.rules_for, get_table_columns. rewrite Hsplit. simpl.
  destruct (default [] (describe_table (describe_statement db schema table)))
    as [|c cols] eqn:Hcols.
  - unfold generated_tests, rule_16. cbv zeta. simpl. by repeat case_match.
  - destruct (generated_tests _ _ _ _ _ _) eqn:Htests; by case_decide.
Qed.

Lemma rules_for_raises n info flag :
  ¬ three_part (fqn info) → rules_for n info flag = Raised ValueError.
Proof.
  intros Hparts. unfold Pipeline.rules_for, get_table_columns.
  by rewrite (unpack3_other _ Hparts).
Qed.

Lemma generate_all_rules_from_returns n infos flag :
  Forall (fun info => three_part (fqn info)) infos →
  ∃ rules,
    generate_all_rules_from n infos flag = Returned rules
    ∧ Forall (fun m => tests m ≠ [] ∧ three_part (model_name m)) rules
    ∧ model_name <$> rules `sublist_of` fqn <$> infos
    ∧ ∀ m, m ∈ rules →
        ∃ k info db schema table,
          infos !! k = Some info ∧ split "." (fqn info) = [db; schema; table]
          ∧ m = table_model (n + k) info flag db schema table.
Proof.
  intros Hall. revert n. induction Hall as [|info infos Hparts _ IH]; intros n.
  - exists []. split; [done|]. split; [constructor|]. split; [constructor|].
    intros m Hin. by apply elem_of_nil in Hin.
  - destruct (rules_for_three_part n info flag Hparts)
      as (db & schema & table & Hsplit & Hhere).
    destruct (IH (S n)) as (later & Hlater & Hne & Hsub & Horigin).
    assert (Hlater' : ∀ m, m ∈ later →
              ∃ k info' db' schema' table',
                (info :: infos) !! k = Some info'
                ∧ split "." (fqn info') = [db'; schema'; table']
                ∧ m = table_model (n + k) info' flag db' schema' table').
    { intros m Hin.
      destruct (Horigin m Hin) as (k & info' & db' & schema' & table' & Hk & Hs & ->).
      exists (S k), info', db', schema', table'.
      split; [done|]. split; [done|].
      by replace (n + S k)%nat with (S n + k)%nat by lia. }
    cbn [Pipeline.generate_all_rules_from]. rewrite Hhere, Hlater.
    destruct (decide (tests (table_model n info flag db schema table) = []))
      as [Hempty|Hsome].
    + exists later. split; [done|]. split; [done|].
      split; [by apply sublist_cons | done].
    + exists (table_model n info flag db schema table :: later).
      split; [done|]. split; [by constructor|].
      split; [by apply sublist_skip|].
      intros m Hin. apply elem_of_cons in Hin as [->|Hin]; [|by apply Hlater'].
      exists O, info, db, schema, table. by rewrite Nat.add_0_r.
Qed.

Lemma generate_all_rules_from_raises n infos flag :
  ¬ Forall (fun info => three_part (fqn info)) infos →
  generate_all_rules_from n infos flag = Raised ValueError.
Proof.
  revert n. induction infos as [|info infos IH]; intros n Hnot.
  - exfalso. apply Hnot. constructor.
  - cbn [Pipeline.generate_all_rules_from].
    destruct (decide (three_part (fqn info))) as [Hparts|Hparts].
    + destruct (rules_for_three_part n info flag Hparts) as (? & ? & ? & _ & ->).
      simpl. rewrite IH; [done|]. intros Hall. apply Hnot. by constructor.
    + by rewrite (rules_for_raises _ _ _ Hparts).
Qed.

(** X12. [generate_all_rules] returns exactly when every name it is given
    is a three-part name, and raises [ValueError] otherwise, whatever the
    warehouse answers.  When it returns, no model is without tests, the names
    of the models are names of the given tables in the given order, and each
    model is what [generate_rules_for_table] gives for that table, the
    columns that [DESCRIBE TABLE] lists for it (none when the statement
    fails) and its date column. *)
Theorem generate_all_rules_outcome infos flag :
  (if decide (Forall (fun info => three_part (fqn info)) infos)
   then ∃ rules, generate_all_rules infos flag = Returned rules
   else generate_all_rules infos flag = Raised ValueError)
  ∧ ∀ rules, generate_all_rules infos flag = Returned rules →
      Forall (fun m => tests m ≠ []) rules
      ∧ model_name <$> rules `sublist_of` fqn <$> infos
      ∧ ∀ m, m ∈ rules →
          ∃ k info db schema table,
            infos !! k = Some info ∧ split "." (fqn info) = [db; schema; table]
            ∧ m = generate_rules_for_table upper (now_at k) (fqn info)
                    (default [] (describe_table (describe_statement db schema table)))
                    (Some (date_col info)) flag.
Proof.
  unfold Pipeline.generate_all_rules.
  destruct (decide (Forall (fun info => three_part (fqn info)) infos)) as [Hall|Hnot].
  - destruct (generate_all_rules_from_returns O infos flag Hall)
      as (rules & Hrules & Hne & Hsub & Horigin).
    split; [by exists rules|]. rewrite Hrules. intros ? [= <-].
    split; [|split; [done|]].
    + eapply Forall_impl; [exact Hne|]. by intros m [? _].
    + exact Horigin.
  - rewrite (generate_all_rules_from_raises O infos flag Hnot). split; [done|].
    intros rules Hrules. discriminate Hrules.
Qed.

Lemma discovered_three_part :
  Forall (fun info => three_part (fqn info)) discovered.
Proof.
  apply Forall_forall. intros info Hin.
  unfold discover_active_tables in Hin.
  apply list_elem_of_bind in Hin as ([db schema] & Hin & _).
  unfold discover_schema in Hin.
  destruct (show_tables (show_tables_statement db schema)) as [table_names|];
    [|by apply elem_of_nil in Hin].
  apply scan_tables_elem in Hin as (table & _ & _ & _ & _ & Hactive).
  destruct (decide (three_part (fqn info))) as [Hparts|Hparts]; [done|].
  exfalso. unfold is_table_active in Hactive.
  rewrite (unpack3_other _ Hparts) in Hactive. discriminate Hactive.
Qed.

Lemma main_finishes :
  ∃ rules results,
    generate_all_rules discovered true = Returned rules
    ∧ Forall (fun m => three_part (model_name m)) rules
    ∧ Runner.run_all_checks lower execute utcnow rules = Returned results
    ∧ length results = length (all_tests rules)
    ∧ Forall consistent results
    ∧ main true = Finished results (Pipeline.exit_code results).
Proof.
  destruct (generate_all_rules_from_returns O discovered true discovered_three_part)
    as (rules & Hrules & Hne & _ & _).
  assert (Hparts : Forall (fun m => three_part (model_name m)) rules).
  { eapply Forall_impl; [exact Hne|]. by intros m [_ ?]. }
  destruct (run_all_checks_returns lower execute utcnow rules Hparts)
    as (results & Hrun & Hlen & _).
  exists rules, results. split; [exact Hrules|]. split; [done|]. split; [done|].
  split; [done|]. split.
  - unfold Runner.run_all_checks in Hrun.
    destruct (total_tests rules =? 0)%nat.
    + injection Hrun as <-. constructor.
    + by eapply run_models_consistent.
  - unfold Pipeline.main. simpl. unfold Pipeline.generate_all_rules.
    rewrite Hrules. simpl. by rewrite Hrun.
Qed.

(** X13. A run of [main] never ends in the [ValueError] of a malformed table
    name: without a connection it exits before anything is written; with one,
    the names that discovery returns all have three parts, so rule generation
    and the execution return, and the results written are one record for
    each test of the generated rules. *)
Theorem main_never_raises connected :
  (∀ e, main connected ≠ Uncaught e)
  ∧ (connected = false → main connected = NoConnection)
  ∧ (connected = true →
     ∃ rules results,
       generate_all_rules discovered true = Returned rules
       ∧ Runner.run_all_checks lower execute utcnow rules = Returned results
       ∧ length results = length (all_tests rules)
       ∧ main connected = Finished results (Pipeline.exit_code results)).
Proof.
  destruct main_finishes as (rules & results & Hrules & _ & Hrun & Hlen & _ & Hmain).
  destruct connected.
  - split; [|split; [done|]].
    + intros e. by rewrite Hmain.
    + intros _. by exists rules, results.
  - split; [done|]. split; [done|]. done.
Qed.

(** X14. When [main] runs to its end, its exit code is 0 exactly when every
    record written has status pass, and 1 otherwise; and the four counts of
    its summary (passed, failed, errors, timed out) add up to the number of
    records. *)
Theorem exit_code_reports_the_run connected results code :
  main connected = Finished results code →
  (code = 0 ↔ Forall (fun r => status r = "pass") results)
  ∧ (code = 0 ∨ code = 1)
  ∧ (Pipeline.count_status "pass" results + Pipeline.count_status "fail" results
     + Pipeline.count_status "error" results + Pipeline.count_status "timeout" results
     = length results)%nat.
Proof.
  destruct main_finishes as (rules & results' & _ & _ & _ & _ & Hall & Hmain).
  destruct connected; [|discriminate]. rewrite Hmain. intros [= <- <-].
  split; [by apply exit_code_zero_iff|]. split.
  - unfold Pipeline.exit_code. destruct (_ || _); tauto.
  - by apply count_status_total.
Qed.

End PipelineFacts.

(** ** The compiler: what a statement depends on *)

Lemma time_window_reads_three_keys (cfg cfg' : gmap string pyval) :
  cfg !! "date_window_col" = cfg' !! "date_window_col" →
  cfg !! "check_yesterday_only" = cfg' !! "check_yesterday_only" →
  cfg !! "time_window_days" = cfg' !! "time_window_days" →
  time_window_filter_content cfg = time_window_filter_content cfg'.
Proof.
  intros Hcol Hflag Hdays. unfold time_window_filter_content, dict_get, dict_get_or.
  by rewrite Hcol, Hflag, Hdays.
Qed.

(** X15. The compiler reads a configuration through four keys only: two
    configurations that agree on [sql], [date_window_col],
    [check_yesterday_only] and [time_window_days] give the same result for
    every kind, table and column, whatever else they hold; and no
    configuration at all is the empty one. *)
Theorem compiler_reads_four_keys kind model col (cfg cfg' : gmap string pyval) :
  cfg !! "sql" = cfg' !! "sql" →
  cfg !! "date_window_col" = cfg' !! "date_window_col" →
  cfg !! "check_yesterday_only" = cfg' !! "check_yesterday_only" →
  cfg !! "time_window_days" = cfg' !! "time_window_days" →
  generate_test_sql kind model col (Some cfg) = generate_test_sql kind model col (Some cfg')
  ∧ generate_test_sql kind model col None = generate_test_sql kind model col (Some ∅).
Proof.
  intros Hsql Hcol Hflag Hdays. split; [|reflexivity].
  unfold generate_test_sql. simpl.
  rewrite (base_condition_reads_sql_only kind col cfg' cfg Hsql).
  unfold all_where_conditions, dict_get.
  by rewrite (time_window_reads_three_keys cfg cfg' Hcol Hflag Hdays), Hcol.
Qed.

(** X16. The column name of a test matters to the kinds [not_null] and
    [unique] only: for every other kind, [custom_sql] among them, the
    compiler gives the same result whatever the column name is. *)
Theorem column_name_matters_to_two_kinds kind model col col' cfg :
  kind ≠ "not_null" → kind ≠ "unique" →
  generate_test_sql kind model col cfg = generate_test_sql kind model col' cfg.
Proof.
  intros Hnn Huq. unfold generate_test_sql, base_condition_content.
  by rewrite (eqb_neq_false _ _ Hnn), (eqb_neq_false _ _ Huq).
Qed.

(** ** The executor: when a run is aborted *)

Section AbortedRuns.
Variable lower : string → string.
Variable execute : nat → string → Z → exec_outcome.
Variable utcnow : nat → string.

Lemma run_tests_raises model n test ts :
  ¬ three_part model →
  Runner.run_tests lower execute utcnow model n (test :: ts) = Raised ValueError.
Proof.
  intros Hparts. cbn [Runner.run_tests]. unfold Runner.run_test.
  by rewrite (generate_test_sql_raises _ _ _ _ Hparts).
Qed.

Lemma run_models_outcome n rules :
  if decide (Forall (fun m => tests m = [] ∨ three_part (model_name m)) rules)
  then ∃ rs, Runner.run_models lower execute utcnow n rules = Returned rs
  else Runner.run_models lower execute utcnow n rules = Raised ValueError.
Proof.
  revert n. induction rules as [|m rules IH]; intros n.
  - rewrite decide_True by constructor. by exists [].
  - cbn [Runner.run_models].
    assert (Hhead : tests m = [] ∨ three_part (model_name m) →
              ∃ rs, Runner.run_tests lower execute utcnow (model_name m) n (tests m)
                    = Returned ((n + length (tests m))%nat, rs)).
    { intros [Hempty|Hparts].
      - rewrite Hempty. exists []. simpl. by rewrite Nat.add_0_r.
      - destruct (run_tests_returns lower execute utcnow _ n (tests m) Hparts)
          as (rs & Hrs & _). by exists rs. }
    specialize (IH (n + length (tests m))%nat).
    destruct (decide (Forall _ (m :: rules))) as [Hall|Hnot].
    + apply Forall_cons in Hall as [Hm Hall]. rewrite decide_True in IH by done.
      destruct (Hhead Hm) as [rs ->]. simpl. destruct IH as [rs' ->]. simpl. by eexists.
    + destruct (decide (tests m = [] ∨ three_part (model_name m))) as [Hm|Hm].
      * rewrite decide_False in IH by (intros Hall; apply Hnot; by constructor).
        destruct (Hhead Hm) as [rs ->]. simpl. by rewrite IH.
      * destruct (tests m) as [|test ts] eqn:Htests; [exfalso; apply Hm; by left|].
        rewrite run_tests_raises; [done|]. intros Hparts. apply Hm. by right.
Qed.

(** X17. [run_all_checks] returns exactly when every model that has a test
    has a three-part name; otherwise it raises [ValueError] and no result is
    returned.  A model without tests never aborts a run, whatever its name,
    and a run without any test returns the empty list. *)
Theorem run_is_aborted_by_a_tested_malformed_name rules :
  (if decide (Forall (fun m => tests m = [] ∨ three_part (model_name m)) rules)
   then ∃ results, run_all_checks lower execute utcnow rules = Returned results
   else run_all_checks lower execute utcnow rules = Raised ValueError)
  ∧ (Forall (fun m => tests m = []) rules →
     run_all_checks lower execute utcnow rules = Returned []).
Proof.
  unfold Runner.run_all_checks. split.
  - pose proof (run_models_outcome O rules) as Hrun.
    destruct (total_tests rules =? 0)%nat eqn:Hzero; [|exact Hrun].
    rewrite decide_True; [by eexists|].
    apply Nat.eqb_eq in Hzero. clear Hrun.
    induction rules as [|m rules IH]; [constructor|].
    unfold total_tests in Hzero. simpl in Hzero. fold (total_tests rules) in Hzero.
    constructor.
    + left. destruct (tests m); [done | simpl in Hzero; lia].
    + apply IH. lia.
  - intros Hall. replace (total_tests rules) with O; [done|].
    induction Hall as [|m rules Hm _ IH]; [done|].
    unfold total_tests. simpl. fold (total_tests rules). by rewrite Hm, <- IH.
Qed.

End AbortedRuns.

(** ** Worked examples: discovery and the pipeline *)

(** The column found by name need not be the one whose type was checked:
    with two columns that differ in letter case only, the first is returned
    although the second has the date type. *)
Lemma case_clash_example :
  get_date_column ascii_upper (fun _ => Some clashing_columns) "DWH" "PUBLIC" "CALENDAR"
  = DateColumn (Some "date")
  ∧ is_date_type ascii_upper "VARCHAR(10)" = false.
Proof.
  split; reflexivity.
Qed.

Lemma date_column_example :
  get_date_column ascii_upper sample_describe "DWH" "PUBLIC" "ACCOUNTS"
  = DateColumn (Some "updatedAt")
  ∧ ∃ c, c ∈ accounts_columns ∧ name c = "updatedAt"
         ∧ is_date_type ascii_upper (type c) = true.
Proof.
  assert (Hres : get_date_column ascii_upper sample_describe "DWH" "PUBLIC" "ACCOUNTS"
                 = DateColumn (Some "updatedAt")) by reflexivity.
  split; [exact Hres|].
  destruct (date_column_is_a_date_column ascii_upper sample_describe _ _ _ _ Hres)
    as (cols & Hd & _ & _ & Hc).
  vm_compute in Hd. injection Hd as <-. apply Hc.
  apply (bool_decide_unpack _). vm_compute. exact I.
Defined.

Lemma priority_example :
  get_date_column ascii_upper sample_describe "DWH" "PUBLIC" "DIM_DATES"
  = DateColumn (Some "DATE")
  ∧ ∃ i, priority_order !! i = Some "DATE"
         ∧ ∀ j q, (j < i)%nat → priority_order !! j = Some q →
                  q ∉ ascii_upper <$> date_type_cols ascii_upper dim_dates_columns.
Proof.
  assert (Hres : get_date_column ascii_upper sample_describe "DWH" "PUBLIC" "DIM_DATES"
                 = DateColumn (Some "DATE")) by reflexivity.
  split; [exact Hres|].
  destruct (date_column_follows_priority ascii_upper sample_describe
              "DWH" "PUBLIC" "DIM_DATES" dim_dates_columns "DATE")
    as [(i & Hi & _ & Hbefore)|[Hnone _]].
  - reflexivity.
  - exact Hres.
  - exists i. split; [exact Hi | exact Hbefore].
  - exfalso. apply (Hnone "DATE").
    + apply (bool_decide_unpack _). vm_compute. exact I.
    + apply (bool_decide_unpack _). vm_compute. exact I.
Defined.

Lemma discovery_example :
  discover_active_tables ascii_upper sample_describe sample_show_tables Z sample_select_max
    sample_within_thirty_days sample_schemas
  = [ {| fqn := "DWH.PUBLIC.ACCOUNTS"; date_col := "updatedAt" |};
      {| fqn := "DWH.RAW.SESSIONS"; date_col := "ts" |} ]
  ∧ three_part "DWH.PUBLIC.ACCOUNTS"
  ∧ is_table_active Z sample_select_max sample_within_thirty_days
      "DWH.PUBLIC.ACCOUNTS" "updatedAt" = Returned true.
Proof.
  assert (Hfound : discover_active_tables ascii_upper sample_describe sample_show_tables Z
                     sample_select_max sample_within_thirty_days sample_schemas
                   = [ {| fqn := "DWH.PUBLIC.ACCOUNTS"; date_col := "updatedAt" |};
                       {| fqn := "DWH.RAW.SESSIONS"; date_col := "ts" |} ])
    by (vm_compute; reflexivity).
  split; [exact Hfound|].
  destruct (discovered_tables_are_well_formed ascii_upper sample_describe sample_show_tables
              Z sample_select_max sample_within_thirty_days sample_schemas
              {| fqn := "DWH.PUBLIC.ACCOUNTS"; date_col := "updatedAt" |})
    as (db & schema & table & table_names & _ & _ & _ & _ & Hparts & _ & _ & _ & Hactive).
  - rewrite Hfound. apply list_elem_of_here.
  - split; [exact Hparts | exact Hactive].
Defined.

Lemma dotted_name_example :
  scan_tables ascii_upper sample_describe Z sample_select_max sample_within_thirty_days
    "DWH" "RAW" (["SESSIONS"] ++ "EVENTS.V2" :: ["CLICKS"])
  = scan_tables ascii_upper sample_describe Z sample_select_max sample_within_thirty_days
      "DWH" "RAW" ["SESSIONS"].
Proof.
  apply (dotted_name_ends_the_schema ascii_upper sample_describe Z sample_select_max
           sample_within_thirty_days "DWH" "RAW" ["SESSIONS"] "EVENTS.V2" "ts" ["CLICKS"]).
  - reflexivity.
  - discriminate.
  - intros Hparts. vm_compute in Hparts. discriminate Hparts.
Defined.

Lemma records_example :
  ∃ results,
    run_all_checks ascii_lower sample_cursor sample_clock sample_rules = Returned results
    ∧ Forall (fun r =>
                (status r = "pass" ∨ status r = "fail" ∨ status r = "error"
                 ∨ status r = "timeout")
                ∧ (status r = "fail" ↔ 0 < failing_rows r)
                ∧ (status r = "error" ∨ status r = "timeout" → failing_rows r = -1))
        results.
Proof.
  eexists. split.
  - vm_compute. reflexivity.
  - apply (records_are_consistent ascii_lower sample_cursor sample_clock sample_rules).
    vm_compute. reflexivity.
Defined.

Lemma generated_test_example :
  let t := primary_key_unique (description_prefix_base (Some "updatedAt") true)
             (base_test_config (Some "updatedAt") true)
             {| name := "id"; type := "NUMBER(38,0)" |} in
  ∃ sql,
    generate_test_sql (test_type t) "DWH.PUBLIC.ACCOUNTS" (column_name t) (Some (config t))
      = Returned (Some sql)
    ∧ sql ≠ EmptyString.
Proof.
  cbv zeta.
  destruct (generated_tests_reach_the_warehouse ascii_upper sample_now "DWH.PUBLIC.ACCOUNTS"
              accounts_columns (Some "updatedAt") true
              (primary_key_unique (description_prefix_base (Some "updatedAt") true)
                 (base_test_config (Some "updatedAt") true)
                 {| name := "id"; type := "NUMBER(38,0)" |}))
    as (sql & Hsql & Hne & _).
  - reflexivity.
  - apply list_elem_of_further, list_elem_of_here.
  - exists sql. split; [exact Hsql | exact Hne].
Defined.

Lemma exit_code_example :
  ∃ results code,
    Pipeline.main ascii_upper ascii_lower sample_describe sample_show_tables Z
      sample_select_max sample_within_thirty_days sample_schemas (fun _ => sample_now)
      sample_cursor sample_clock true
    = Finished results code
    ∧ code = 1
    ∧ (Pipeline.count_status "pass" results + Pipeline.count_status "fail" results
       + Pipeline.count_status "error" results + Pipeline.count_status "timeout" results
       = length results)%nat.
Proof.
  eexists _, _. split; [vm_compute; reflexivity|]. split; [reflexivity|].
  apply (exit_code_reports_the_run ascii_upper ascii_lower sample_describe sample_show_tables
           Z sample_select_max sample_within_thirty_days sample_schemas
           (fun _ => sample_now) sample_cursor sample_clock true _ 1).
  vm_compute. reflexivity.
Defined.

Lemma four_keys_example :
  generate_test_sql "custom_sql" "DWH.PUBLIC.ACCOUNTS" "BALANCE"
    (Some {[ "sql" := VStr "BALANCE < 0"; "severity" := VStr "warn" ]})
  = generate_test_sql "custom_sql" "DWH.PUBLIC.ACCOUNTS" "BALANCE"
      (Some {[ "sql" := VStr "BALANCE < 0" ]}).
Proof.
  destruct (compiler_reads_four_keys "custom_sql" "DWH.PUBLIC.ACCOUNTS" "BALANCE"
              {[ "sql" := VStr "BALANCE < 0"; "severity" := VStr "warn" ]}
              {[ "sql" := VStr "BALANCE < 0" ]}) as [Hsame _].
  - vm_compute. reflexivity.
  - vm_compute. reflexivity.
  - vm_compute. reflexivity.
  - vm_compute. reflexivity.
  - exact Hsame.
Defined.

Lemma column_name_example :
  generate_test_sql "custom_sql" "DWH.PUBLIC.ACCOUNTS" "BALANCE"
    (Some {[ "sql" := VStr "BALANCE < 0" ]})
  = generate_test_sql "custom_sql" "DWH.PUBLIC.ACCOUNTS" "N/A"
      (Some {[ "sql" := VStr "BALANCE < 0" ]}).
Proof.
  apply column_name_matters_to_two_kinds; discriminate.
Defined.

(** ** The pipeline: the window of a scheduled run *)

Section ScheduledRun.
Variable upper : string → string.
Variable describe_table : string → option (list Column).
Variable show_tables : string → option (list string).
Variable V : Type.
Variable select_max : string → Z → max_outcome V.
Variable within_thirty_days : string → V → option bool.
Variable TARGET_SCHEMAS : list (string * string).
Variable now_at : nat → datetime.

Abbreviation generate_all_rules := (Pipeline.generate_all_rules upper describe_table now_at).
Abbreviation discovered :=
  (discover_active_tables upper describe_table show_tables V select_max within_thirty_days
     TARGET_SCHEMAS).




End ScheduledRun.

